(** * SAPODataOperator: a shallow embedding of [src/main.py]

    The operator is one Python class with a constructor, [__init__], and one
    method, [execute].  Everything else it touches belongs to other packages
    (airflow's [HttpHook], [pyodata], [urllib3], [pandas]).  Those collaborators
    are a record of oracles, [backend]; every theorem below quantifies over all
    backends, and the examples run the operator against small stub backends. *)

From Stdlib Require Import String Ascii List ZArith Bool Lia DecimalString.
Import ListNotations.
Open Scope string_scope.

(** * Part I: the model *)

(** ** Python objects, as far as the operator observes them *)

(** A constructor argument ([http_conn_id], [service_url], [function], [entity],
    [property]).  The operator tests such an object for [None], for being a
    [str], for its truth value, and renders it with [str()]; an object that is
    neither [None] nor a string is represented by those two observations. *)
Inductive pyobj : Type :=
| PyNone
| PyStr (s : string)
| PyObj (truth : bool) (text : string).

(** [bool(x)] *)
Definition truthy (x : pyobj) : bool :=
  match x with
  | PyNone => false
  | PyStr s => negb (String.eqb s EmptyString)
  | PyObj b _ => b
  end.

(** [x is not None] *)
Definition is_not_None (x : pyobj) : bool :=
  match x with PyNone => false | _ => true end.

(** [isinstance(x, str)] *)
Definition isinstance_str (x : pyobj) : bool :=
  match x with PyStr _ => true | _ => false end.

(** [str(x)], as an f-string replacement field renders it *)
Definition py_str (x : pyobj) : string :=
  match x with
  | PyNone => "None"
  | PyStr s => s
  | PyObj _ t => t
  end.

(** Data that only passes through the operator: parameter values, the response
    of a function call, the cells of the result. *)
#[local] Unset Elimination Schemes.
Inductive data : Type :=
| DNone
| DBool (b : bool)
| DInt (z : Z)
| DStr (s : string)
| DList (l : list data)
| DDict (d : list (string * data)).
#[local] Set Elimination Schemes.

(** A Python [dict] with string keys, in insertion order. *)
Definition record : Type := list (string * data).

(** The [parameters] argument: a [dict], or any other object (given by its
    truth value and the name of its type). *)
Inductive params : Type :=
| ParamDict (items : record)
| ParamOther (truth : bool) (type_name : string).

(** [isinstance(p, dict)] *)
Definition isinstance_dict (p : params) : bool :=
  match p with ParamDict _ => true | ParamOther _ _ => false end.

(** [bool(p)]: a dict is true when it is not empty *)
Definition params_truthy (p : params) : bool :=
  match p with
  | ParamDict [] => false
  | ParamDict (_ :: _) => true
  | ParamOther b _ => b
  end.

(** ** Exceptions *)

Inductive exn_class : Type :=
| AirflowException
| TypeError
| NameError
| AttributeError
| KeyError
| LibraryError (name : string).

(** An exception (a subclass of [Exception]): its class and its [str()]. *)
Record exn : Type := Exn { exn_class_of : exn_class; exn_str : string }.

Inductive result (A : Type) : Type :=
| Ok (a : A)
| Raise (e : exn).
Arguments Ok {A} a.
Arguments Raise {A} e.

(** ** The transport handle *)

(** An [HttpHook] instance: the connection id it was built for and its mutable
    [base_url] attribute. *)
Record HttpHook : Type := mkHttpHook { hook_conn_id : pyobj; base_url : option string }.

(** [HttpHook(http_conn_id=c)] stores the id and leaves [base_url] unset. *)
Definition HttpHook_init (c : pyobj) : HttpHook :=
  {| hook_conn_id := c; base_url := None |}.

(** The [http_hook] argument. *)
Inductive hook_arg : Type :=
| HookNone
| HookInstance (h : HttpHook)              (* isinstance(http_hook, HttpHook) *)
| HookDuck (h : HttpHook)                  (* another class with base_url and get_conn() *)
| HookOther (truth : bool) (attr_error : string).
                                           (* any other object; using it as a hook
                                              raises AttributeError(attr_error) *)

(** [bool(http_hook)] *)
Definition hook_truthy (h : hook_arg) : bool :=
  match h with
  | HookNone => false
  | HookInstance _ | HookDuck _ => true
  | HookOther b _ => b
  end.

(** [isinstance(http_hook, HttpHook)] *)
Definition isinstance_HttpHook (h : hook_arg) : bool :=
  match h with HookInstance _ => true | _ => false end.

(** What [urllib3]'s [parse_url] returns, as far as line 86 reads it. *)
Record Url : Type := mkUrl { scheme : option string; host : option string; port : option Z }.

Definition str_option (o : option string) : string :=
  match o with Some s => s | None => "None" end.

Definition str_int (z : Z) : string := NilZero.string_of_int (Z.to_int z).

(** Line 86:
    [f"{url.scheme}://{url.host}" + f"{':' + str(url.port) if url.port else ''}"] *)
Definition format_base_url (u : Url) : string :=
  str_option (scheme u) ++ "://" ++ str_option (host u) ++
  match port u with
  | Some p => if Z.eqb p 0 then EmptyString else ":" ++ str_int p
  | None => EmptyString
  end.

(** ** The operator's fields *)

Record task : Type := mkTask {
  http_hook : hook_arg;
  http_conn_id : pyobj;
  service_url : pyobj;
  function : pyobj;
  entity : pyobj;
  property : pyobj;
  parameters : params
}.

Definition set_http_hook (h : hook_arg) (t : task) : task :=
  {| http_hook := h; http_conn_id := http_conn_id t; service_url := service_url t;
     function := function t; entity := entity t; property := property t;
     parameters := parameters t |}.

Definition set_function (f : pyobj) (t : task) : task :=
  {| http_hook := http_hook t; http_conn_id := http_conn_id t; service_url := service_url t;
     function := f; entity := entity t; property := property t;
     parameters := parameters t |}.

Definition set_entity (e : pyobj) (t : task) : task :=
  {| http_hook := http_hook t; http_conn_id := http_conn_id t; service_url := service_url t;
     function := function t; entity := e; property := property t;
     parameters := parameters t |}.

Definition set_property (p : pyobj) (t : task) : task :=
  {| http_hook := http_hook t; http_conn_id := http_conn_id t; service_url := service_url t;
     function := function t; entity := entity t; property := p;
     parameters := parameters t |}.

(** ** [__init__] (lines 43-67) *)

(** The names bound where the body of [__init__] runs: its arguments, the
    module's globals, and the builtins the body mentions. *)
Definition init_scope : list string :=
  [ "self"; "http_hook"; "http_conn_id"; "service_url"; "function"; "entity";
    "property"; "parameters"; "args"; "kwargs";
    "pd"; "pyodata"; "requests"; "HttpHook"; "AirflowException"; "BaseOperator";
    "apply_defaults"; "SAPODataOperator";
    "type"; "isinstance"; "super"; "dict"; "str"; "TypeError"; "Exception" ].

(** Evaluating a bare name. *)
Definition eval_name (scope : list string) (n : string) : result unit :=
  if existsb (String.eqb n) scope then Ok tt
  else Raise (Exn NameError ("name '" ++ n ++ "' is not defined")).

(** [type(p)] rendered by an f-string. *)
Definition type_text (p : params) : string :=
  match p with
  | ParamDict _ => "<class 'dict'>"
  | ParamOther _ n => "<class '" ++ n ++ "'>"
  end.

(** The exception line 67 raises.  Its message is the f-string
    [f"`parameters` should be dictionary like {parameter: value}, got {type(self.parameters)}"]:
    the braces around [parameter: value] make a replacement field, the
    expression [parameter] with format spec [ value], and it is evaluated
    before the [TypeError] is built. *)
Definition line67_exception (p : params) : exn :=
  match eval_name init_scope "parameter" with
  | Raise e => e
  | Ok _ =>
      Exn TypeError ("`parameters` should be dictionary like " ++ "parameter" ++
                     ", got " ++ type_text p)
  end.

(** [SAPODataOperator(...)]: the fields are stored, then checked in this order.
    ([super().__init__] belongs to the framework and is taken to return.) *)
Definition init (hook : hook_arg) (conn_id url fn ent prop : pyobj) (ps : params)
  : result task :=
  let self := mkTask hook conn_id url fn ent prop ps in
  if negb (truthy (property self)) && negb (truthy (function self)) then
    Raise (Exn AirflowException "Either `function` or `entity` needs to be provided.")
  else if negb (truthy (service_url self)) then
    Raise (Exn AirflowException "`service_url` needs to be provided.")
  else if negb (isinstance_dict (parameters self)) then
    Raise (line67_exception (parameters self))
  else Ok self.

(** ** The collaborators *)

(** The result table.  pandas is not part of the repository: a [DataFrame] is
    represented by the constructor call that built it and the data it was
    given, so two tables are equal exactly when they were built the same way
    from equal data.  How pandas lays the data out, and the data it refuses,
    are not modelled. *)
Inductive DataFrame : Type :=
| DataFrame_from_dict (d : data)              (* pd.DataFrame.from_dict(d) *)
| DataFrame_from_records (rows : list record). (* pd.DataFrame.from_records(rows) *)

(** An entry of [client.schema.entity_sets]: [es.name] and the names of
    [es.entity_type.proprties()] (pyodata spells the accessor this way). *)
Record EntitySet : Type := mkEntitySet { es_name : string; es_proprties : list string }.

(** Every call the operator makes outside itself, as an oracle that returns a
    value or raises.  The oracles are functions: a collaborator answers the
    same call in the same way. *)
Record backend : Type := mkBackend {
  Session : Type;
  Client : Type;
  FunctionRequest : Type;
  EntitySetProxy : Type;
  EntityRequest : Type;
  NavProxy : Type;
  QueryRequest : Type;
  Entity : Type;
  (* requests.urllib3.util.url.parse_url(service_url) *)
  parse_url : pyobj -> result Url;
  (* hook.get_conn(): the session, and the base_url the hook holds afterwards
     (airflow's get_conn may reset it from the stored connection) *)
  get_conn : HttpHook -> result (Session * option string);
  (* pyodata.Client(service_url, sess) *)
  pyodata_Client : pyobj -> Session -> result Client;
  (* client.functions.__getattr__(name) *)
  functions_getattr : Client -> string -> result FunctionRequest;
  (* request.parameter(name, value) *)
  parameter : FunctionRequest -> string -> data -> result FunctionRequest;
  (* request.execute() on a function request *)
  function_execute : FunctionRequest -> result data;
  (* client.entity_sets.__getattr__(name) *)
  entity_sets_getattr : Client -> pyobj -> result EntitySetProxy;
  (* entity_set.get_entity with the items of parameters as keyword arguments *)
  get_entity : EntitySetProxy -> record -> result EntityRequest;
  (* entity_request.nav(property) *)
  nav : EntityRequest -> pyobj -> result NavProxy;
  (* nav_proxy.get_entities() *)
  get_entities : NavProxy -> result QueryRequest;
  (* data.execute() on an entity query *)
  query_execute : QueryRequest -> result (list Entity);
  (* client.schema.entity_sets *)
  schema_entity_sets : Client -> list EntitySet;
  (* d.__getattr__(name) on a returned entity *)
  entity_getattr : Entity -> string -> result data
}.

(** ** The run: state, errors and a log of what the operator did *)

(** One entry per call to a collaborator and per [self.log.info]. *)
Inductive event : Type :=
| LogInfo (msg : string)
| EvNewHttpHook (conn_id : pyobj)
| EvParseUrl (service_url : pyobj)
| EvSetBaseUrl (url : string)
| EvGetConn (h : HttpHook)
| EvCloseSession
| EvClient (service_url : pyobj)
| EvFunctionLookup (name : string)
| EvParameter (name : string) (value : data)
| EvFunctionExecute
| EvEntitySetLookup (name : pyobj)
| EvGetEntity (key : record)
| EvNav (prop : pyobj)
| EvGetEntities
| EvQueryExecute
| EvSchemaEntitySets
| EvEntityGetattr (name : string)
| EvDataFrame.

(** The state [execute] threads: the instance ([self], whose fields it
    assigns), the local [step_msg], and the log. *)
Record state : Type := mkState { self : task; step_msg : option string; trace : list event }.

Definition M (A : Type) : Type := state -> state * result A.

Definition ret {A} (a : A) : M A := fun st => (st, Ok a).

Definition bind {A B} (m : M A) (k : A -> M B) : M B :=
  fun st => match m st with
            | (st', Ok a) => k a st'
            | (st', Raise e) => (st', Raise e)
            end.

Definition raise {A} (e : exn) : M A := fun st => (st, Raise e).

Definition get_self : M task := fun st => (st, Ok (self st)).

Definition put_self (t : task) : M unit :=
  fun st => (mkState t (step_msg st) (trace st), Ok tt).

Definition set_step (s : option string) : M unit :=
  fun st => (mkState (self st) s (trace st), Ok tt).

Definition emit (ev : event) : M unit :=
  fun st => (mkState (self st) (step_msg st) (trace st ++ [ev]), Ok tt).

Declare Scope monad_scope.
Delimit Scope monad_scope with monad.
Notation "x <- m ;; k" := (bind m (fun x => k))
  (at level 61, m at next level, right associativity) : monad_scope.
Notation "m ;; k" := (bind m (fun _ => k))
  (at level 61, right associativity) : monad_scope.
Open Scope monad_scope.

(** A call to a collaborator: logged, then its answer returned or raised. *)
Definition call {A} (ev : event) (r : result A) : M A :=
  emit ev ;; match r with Ok a => ret a | Raise e => raise e end.

(** [self.log.info(msg)] *)
Definition log_info (msg : string) : M unit := emit (LogInfo msg).

(** ** Dictionaries built by the operator *)

(** [d[k]] on a dict, [None] when the key is missing. *)
Fixpoint dict_get {V} (k : string) (d : list (string * V)) : option V :=
  match d with
  | [] => None
  | (k', v) :: d' => if String.eqb k k' then Some v else dict_get k d'
  end.

(** [d[k] = v]: an existing key keeps its place and takes the new value, a new
    key goes last. *)
Fixpoint dict_set {V} (k : string) (v : V) (d : list (string * V)) : list (string * V) :=
  match d with
  | [] => [(k, v)]
  | (k', v') :: d' =>
      if String.eqb k k' then (k', v) :: d' else (k', v') :: dict_set k v d'
  end.

(** [list(d.keys())] *)
Definition keys {V} (d : list (string * V)) : list string := map fst d.

(** [x[k]] on a response. *)
Definition getitem (x : data) (k : string) : result data :=
  match x with
  | DDict d =>
      match dict_get k d with
      | Some v => Ok v
      | None => Raise (Exn KeyError ("'" ++ k ++ "'"))
      end
  | DNone => Raise (Exn TypeError "'NoneType' object is not subscriptable")
  | DBool _ => Raise (Exn TypeError "'bool' object is not subscriptable")
  | DInt _ => Raise (Exn TypeError "'int' object is not subscriptable")
  | DStr _ => Raise (Exn TypeError "string indices must be integers")
  | DList _ => Raise (Exn TypeError "list indices must be integers or slices, not str")
  end.

(** Lines 125-128, [{es.name: es for es in client.schema.entity_sets}]. *)
Definition schema_by_name (l : list EntitySet) : list (string * EntitySet) :=
  fold_left (fun d es => dict_set (es_name es) es d) l [].

(** [...[self.property]] on that dict: only a string can be one of its keys. *)
Definition schema_lookup (l : list EntitySet) (p : pyobj) : result EntitySet :=
  match p with
  | PyStr s =>
      match dict_get s (schema_by_name l) with
      | Some es => Ok es
      | None => Raise (Exn KeyError ("'" ++ s ++ "'"))
      end
  | _ => Raise (Exn KeyError (py_str p))
  end.

(** ** [execute] (lines 69-140) *)

Section Execute.
Variable B : backend.

(** Line 86, the assignment [self.http_hook.base_url = ...]. *)
Definition assign_base_url (s : string) : M unit :=
  t <- get_self ;;
  match http_hook t with
  | HookInstance h =>
      emit (EvSetBaseUrl s) ;;
      put_self (set_http_hook (HookInstance (mkHttpHook (hook_conn_id h) (Some s))) t)
  | HookDuck h =>
      emit (EvSetBaseUrl s) ;;
      put_self (set_http_hook (HookDuck (mkHttpHook (hook_conn_id h) (Some s))) t)
  | HookOther _ err => raise (Exn AttributeError err)
  | HookNone => raise (Exn AttributeError "'NoneType' object has no attribute 'base_url'")
  end.

(** Line 88, [self.http_hook.get_conn()]. *)
Definition hook_get_conn : M (Session B) :=
  t <- get_self ;;
  match http_hook t with
  | HookInstance h =>
      r <- call (EvGetConn h) (get_conn B h) ;;
      put_self (set_http_hook (HookInstance (mkHttpHook (hook_conn_id h) (snd r))) t) ;;
      ret (fst r)
  | HookDuck h =>
      r <- call (EvGetConn h) (get_conn B h) ;;
      put_self (set_http_hook (HookDuck (mkHttpHook (hook_conn_id h) (snd r))) t) ;;
      ret (fst r)
  | HookOther _ err => raise (Exn AttributeError err)
  | HookNone => raise (Exn AttributeError "'NoneType' object has no attribute 'get_conn'")
  end.

(** The [with ... as sess:] block: the session is closed however the body ends. *)
Definition with_session {A} (body : M A) : M A :=
  fun st =>
    let (st', r) := body st in
    (mkState (self st') (step_msg st') (trace st' ++ [EvCloseSession]), r).

(** Lines 99-100, the loop over [self.parameters.items()]. *)
Fixpoint bind_parameters (request : FunctionRequest B) (items : record)
  : M (FunctionRequest B) :=
  match items with
  | [] => ret request
  | (name, value) :: rest =>
      request' <- call (EvParameter name value) (parameter B request name value) ;;
      bind_parameters request' rest
  end.

(** Lines 91-108. *)
Definition function_path (client : Client B) : M (option DataFrame) :=
  t <- get_self ;;
  (if is_not_None (entity t)
   then log_info "entity is ignored when function is provided."
   else ret tt) ;;
  set_step (Some ("preparing data request for function " ++ py_str (function t))) ;;
  request <- call (EvFunctionLookup (py_str (function t)))
                  (functions_getattr B client (py_str (function t))) ;;
  request <- (if params_truthy (parameters t) then
                match parameters t with
                | ParamDict items => bind_parameters request items
                | ParamOther _ n =>
                    raise (Exn AttributeError
                             ("'" ++ n ++ "' object has no attribute 'items'"))
                end
              else ret request) ;;
  set_step (Some "sending request and recieving data") ;;
  response <- call EvFunctionExecute (function_execute B request) ;;
  set_step (Some "creating result pandas DataFrame") ;;
  match getitem response "results" with
  | Ok results => emit EvDataFrame ;; ret (Some (DataFrame_from_dict results))
  | Raise e => raise e
  end.

(** Lines 133-134, one row: [{col.name: d.__getattr__(col.name) for col in columns}]. *)
Fixpoint row_of (d : Entity B) (columns : list string) (row : record) : M record :=
  match columns with
  | [] => ret row
  | col :: rest =>
      v <- call (EvEntityGetattr col) (entity_getattr B d col) ;;
      row_of d rest (dict_set col v row)
  end.

(** Lines 132-135, the rows: [[{...} for d in data]]. *)
Fixpoint rows_of (ds : list (Entity B)) (columns : list string) : M (list record) :=
  match ds with
  | [] => ret []
  | d :: rest =>
      r <- row_of d columns [] ;;
      rs <- rows_of rest columns ;;
      ret (r :: rs)
  end.

(** Lines 109-135. *)
Definition entity_path (client : Client B) : M (option DataFrame) :=
  t <- get_self ;;
  (if negb (truthy (property t)) then
     log_info "`property` is not provided, filling with `entity` value" ;;
     put_self (set_property (entity t) t)
   else ret tt) ;;
  t <- get_self ;;
  set_step (Some ("preparing data request for entity set " ++ py_str (entity t))) ;;
  es <- call (EvEntitySetLookup (entity t)) (entity_sets_getattr B client (entity t)) ;;
  er <- match parameters t with
        | ParamDict items => call (EvGetEntity items) (get_entity B es items)
        | ParamOther _ n =>
            raise (Exn TypeError ("argument after ** must be a mapping, not " ++ n))
        end ;;
  np <- call (EvNav (property t)) (nav B er (property t)) ;;
  q <- call EvGetEntities (get_entities B np) ;;
  set_step (Some "sending request and recieving data") ;;
  ds <- call EvQueryExecute (query_execute B q) ;;
  set_step (Some "recieving headers") ;;
  emit EvSchemaEntitySets ;;
  match schema_lookup (schema_entity_sets B client) (property t) with
  | Raise e => raise e
  | Ok es =>
      let columns := es_proprties es in
      set_step (Some "creating result pandas DataFrame") ;;
      rows <- rows_of ds columns ;;
      emit EvDataFrame ;;
      ret (Some (DataFrame_from_records rows))
  end.

(** Lines 74-86: which handle to use, and its base address. *)
Definition resolve_transport : M unit :=
  t <- get_self ;;
  (if truthy (http_conn_id t) then
     if hook_truthy (http_hook t) && isinstance_HttpHook (http_hook t) then
       log_info "`http_conn_id` is ignored when `http_hook` is provided."
     else
       log_info "`http_hook` is not provided or invalid. Trying `http_conn_id` to create HttpHook." ;;
       emit (EvNewHttpHook (http_conn_id t)) ;;
       put_self (set_http_hook (HookInstance (HttpHook_init (http_conn_id t))) t)
   else ret tt) ;;
  t <- get_self ;;
  if negb (hook_truthy (http_hook t)) then
    set_step (Some "creating http session") ;;
    raise (Exn AirflowException "Cannot operate without `http_hook` or `http_conn_id`.")
  else
    url <- call (EvParseUrl (service_url t)) (parse_url B (service_url t)) ;;
    assign_base_url (format_base_url url).

(** Lines 91 and 109: the branch on the selector. *)
Definition dispatch (client : Client B) : M (option DataFrame) :=
  t <- get_self ;;
  if is_not_None (function t) && isinstance_str (function t) then
    function_path client
  else if truthy (entity t) then
    entity_path client
  else ret None.

(** Lines 74-135, the body of the [try]. *)
Definition execute_try : M (option DataFrame) :=
  resolve_transport ;;
  sess <- hook_get_conn ;;
  with_session
    (t <- get_self ;;
     client <- call (EvClient (service_url t)) (pyodata_Client B (service_url t) sess) ;;
     dispatch client).

(** What one call of [execute] leaves behind: the instance as it is
    afterwards, the log, and the value returned or the exception raised. *)
Record run : Type := mkRun {
  run_self : task;
  run_trace : list event;
  run_result : result (option DataFrame)
}.

Definition dquote : string := String (ascii_of_nat 34) EmptyString.

(** Line 138: [f"Error while step \"{step_msg}\", error: {str(e)}"]. *)
Definition wrap_message (step : option string) (e : exn) : string :=
  "Error while step " ++ dquote ++ str_option step ++ dquote ++ ", error: " ++ exn_str e.

(** [execute(self, context)]: [step_msg] and [result] start as [None]; any
    exception of the body is replaced by one [AirflowException]. *)
Definition execute (t : task) : run :=
  let (st, r) := execute_try (mkState t None []) in
  {| run_self := self st;
     run_trace := trace st;
     run_result :=
       match r with
       | Ok v => Ok v
       | Raise e => Raise (Exn AirflowException (wrap_message (step_msg st) e))
       end |}.

End Execute.

(** ** Stub backends *)

Module Stub.

(** A small service: function [GetOrders], entity set [Customers] whose
    schema declares [name] and [city], and a connection that may be down. *)
Definition orders : data :=
  DDict [("results",
          DList [DDict [("id", DInt 1); ("total", DInt 100)];
                 DDict [("id", DInt 2); ("total", DInt 50)]])].

Definition customers : list record :=
  [ [("__metadata", DStr "Customers('C1')/Customers(1)"); ("name", DStr "Ada"); ("city", DStr "Turin")];
    [("__metadata", DStr "Customers('C1')/Customers(2)"); ("name", DStr "Bob"); ("city", DStr "Oslo")] ].

Definition unknown {A} (what name : string) : result A :=
  Raise (Exn AttributeError ("unknown " ++ what ++ " " ++ name)).

Definition service (conn_error : option string) (function_result : data)
                   (entities : list record) : backend :=
  {| Session := unit;
     Client := unit;
     FunctionRequest := string * record;
     EntitySetProxy := string;
     EntityRequest := string * record;
     NavProxy := string * string;
     QueryRequest := string * string;
     Entity := record;
     parse_url := fun _ => Ok (mkUrl (Some "https") (Some "sap.example.com") (Some 8443%Z));
     get_conn := fun h =>
       match conn_error with
       | Some msg => Raise (Exn AirflowException msg)
       | None => Ok (tt, base_url h)
       end;
     pyodata_Client := fun _ _ => Ok tt;
     functions_getattr := fun _ name =>
       if String.eqb name "GetOrders" then Ok (name, []) else unknown "function" name;
     parameter := fun rq name value => Ok (fst rq, (snd rq ++ [(name, value)])%list);
     function_execute := fun _ => Ok function_result;
     entity_sets_getattr := fun _ name =>
       match name with
       | PyStr "Customers" => Ok "Customers"
       | _ => unknown "entity set" (py_str name)
       end;
     get_entity := fun es key => Ok (es, key);
     nav := fun er prop =>
       match prop with
       | PyStr "Customers" => Ok (fst er, "Customers")
       | _ => unknown "navigation property" (py_str prop)
       end;
     get_entities := fun np => Ok np;
     query_execute := fun _ => Ok entities;
     schema_entity_sets := fun _ =>
       [mkEntitySet "Orders" ["id"; "total"]; mkEntitySet "Customers" ["name"; "city"]];
     entity_getattr := fun d name =>
       match dict_get name d with
       | Some v => Ok v
       | None => unknown "property" name
       end |}.

Definition shop : backend := service None orders customers.
Definition empty_shop : backend := service None (DDict [("results", DList [])]) [].
Definition offline : backend :=
  service (Some "The conn_id `sap` isn't defined") orders customers.

Definition hook : hook_arg := HookInstance (HttpHook_init (PyStr "sap")).
Definition url : pyobj := PyStr "https://sap.example.com:8443/sap/opu/odata/SHOP_SRV".

(** [function="GetOrders", parameters={"year": 2023}] *)
Definition get_orders : task :=
  mkTask hook PyNone url (PyStr "GetOrders") PyNone PyNone (ParamDict [("year", DInt 2023)]).

(** [entity="Customers", parameters={"Id": "C1"}], no function, no property *)
Definition customers_of_C1 : task :=
  mkTask hook PyNone url PyNone (PyStr "Customers") PyNone (ParamDict [("Id", DStr "C1")]).

(** [property="Orders"] alone: no function, no entity *)
Definition property_only : task :=
  mkTask hook PyNone url PyNone PyNone (PyStr "Orders") (ParamDict []).

(** [function=5], no entity: the function branch is skipped and there is
    nothing else to do. *)
Definition integer_function : task :=
  mkTask hook PyNone url (PyObj true "5") PyNone PyNone (ParamDict []).

(** A handle that is not an [HttpHook] and an empty identifier. *)
Definition duck_get_orders : task :=
  mkTask (HookDuck (HttpHook_init PyNone)) (PyStr EmptyString) url
         (PyStr "GetOrders") PyNone PyNone (ParamDict [("year", DInt 2023)]).

(** A handle that is a string, and no identifier. *)
Definition string_hook_get_orders : task :=
  mkTask (HookOther true "'str' object has no attribute 'base_url'") PyNone url
         (PyStr "GetOrders") PyNone PyNone (ParamDict [("year", DInt 2023)]).

(** Neither a handle nor an identifier. *)
Definition no_transport : task :=
  mkTask HookNone PyNone url (PyStr "GetOrders") PyNone PyNone (ParamDict []).

End Stub.

(** * Part II: notions used to state the claims *)

#[local] Open Scope list_scope.

(** ** The loops, without the state

    The two loops of [execute] read nothing of the state and only add to the
    log.  Their value and the entries they add are given here as plain
    functions, so that a run of [execute] unfolds into finitely many cases. *)

Section LoopValues.
Variable B : backend.

Fixpoint fold_parameters (request : FunctionRequest B) (items : record)
  : result (FunctionRequest B) :=
  match items with
  | [] => Ok request
  | (name, value) :: rest =>
      match parameter B request name value with
      | Ok request' => fold_parameters request' rest
      | Raise e => Raise e
      end
  end.

Fixpoint parameter_events (request : FunctionRequest B) (items : record) : list event :=
  match items with
  | [] => []
  | (name, value) :: rest =>
      EvParameter name value ::
      match parameter B request name value with
      | Ok request' => parameter_events request' rest
      | Raise _ => []
      end
  end.

Fixpoint row_value (d : Entity B) (columns : list string) (row : record) : result record :=
  match columns with
  | [] => Ok row
  | col :: rest =>
      match entity_getattr B d col with
      | Ok v => row_value d rest (dict_set col v row)
      | Raise e => Raise e
      end
  end.

Fixpoint row_events (d : Entity B) (columns : list string) : list event :=
  match columns with
  | [] => []
  | col :: rest =>
      EvEntityGetattr col ::
      match entity_getattr B d col with
      | Ok _ => row_events d rest
      | Raise _ => []
      end
  end.

Fixpoint rows_value (ds : list (Entity B)) (columns : list string) : result (list record) :=
  match ds with
  | [] => Ok []
  | d :: rest =>
      match row_value d columns [] with
      | Ok r =>
          match rows_value rest columns with
          | Ok rs => Ok (r :: rs)
          | Raise e => Raise e
          end
      | Raise e => Raise e
      end
  end.

Fixpoint rows_events (ds : list (Entity B)) (columns : list string) : list event :=
  match ds with
  | [] => []
  | d :: rest =>
      (row_events d columns ++
       match row_value d columns [] with
       | Ok _ => rows_events rest columns
       | Raise _ => []
       end)%list
  end.

(** The state with more entries in its log. *)
Definition extend (st : state) (evs : list event) : state :=
  mkState (self st) (step_msg st) (trace st ++ evs).

(** What a row built for entity [d] from the columns [cols] looks like: its
    keys are the columns, each once, and each value is the entity's
    attribute of that name. *)
Definition row_of_entity (d : Entity B) (cols : list string) (row : record) : Prop :=
  NoDup (keys row) /\
  (forall k, In k (keys row) <-> In k cols) /\
  (forall k, In k cols ->
     exists v, entity_getattr B d k = Ok v /\ dict_get k row = Some v).

End LoopValues.

(** ** Selectors, handles and log entries *)

(** The property the entity path navigates and looks up (lines 110-112). *)
Definition effective_property (t : task) : pyobj :=
  if truthy (property t) then property t else entity t.

(** The instance after the branch on the selector. *)
Definition after_dispatch (t : task) : task :=
  if is_not_None (function t) && isinstance_str (function t) then t
  else if truthy (entity t) then set_property (effective_property t) t
  else t.

(** The handle lines 74-80 settle on. *)
Definition resolved_hook (t : task) : hook_arg :=
  if truthy (http_conn_id t) then
    if hook_truthy (http_hook t) && isinstance_HttpHook (http_hook t) then http_hook t
    else HookInstance (HttpHook_init (http_conn_id t))
  else http_hook t.

(** Two handles that differ at most in the [base_url] they hold. *)
Definition same_transport (h1 h2 : hook_arg) : Prop :=
  match h1, h2 with
  | HookNone, HookNone => True
  | HookInstance a, HookInstance b => hook_conn_id a = hook_conn_id b
  | HookDuck a, HookDuck b => hook_conn_id a = hook_conn_id b
  | HookOther b1 e1, HookOther b2 e2 => b1 = b2 /\ e1 = e2
  | _, _ => False
  end.

(** The items of [parameters] that lines 98-100 bind: those of a dict. *)
Definition items_of (p : params) : record :=
  match p with ParamDict items => items | ParamOther _ _ => [] end.

(** The entry [request.parameter(name, value)] leaves in the log. *)
Definition parameter_event (kv : string * data) : event :=
  EvParameter (fst kv) (snd kv).

(** Lines 92-93. *)
Definition entity_ignored_log (t : task) : list event :=
  if is_not_None (entity t)
  then [LogInfo "entity is ignored when function is provided."]
  else [].

(** Lines 110-111. *)
Definition property_fill_log (t : task) : list event :=
  if truthy (property t) then []
  else [LogInfo "`property` is not provided, filling with `entity` value"].

(** The calls of the function path (lines 97-104). *)
Definition function_path_event (ev : event) : bool :=
  match ev with
  | EvFunctionLookup _ | EvParameter _ _ | EvFunctionExecute => true
  | _ => false
  end.

(** The calls of the entity path (lines 116-133). *)
Definition entity_path_event (ev : event) : bool :=
  match ev with
  | EvEntitySetLookup _ | EvGetEntity _ | EvNav _ | EvGetEntities | EvQueryExecute
  | EvSchemaEntitySets | EvEntityGetattr _ => true
  | _ => false
  end.

(** Line 80, a handle built from the identifier. *)
Definition new_hook_event (ev : event) : bool :=
  match ev with EvNewHttpHook _ => true | _ => false end.

(** The calls of lines 85-89. *)
Definition prelude_event (ev : event) : bool :=
  match ev with
  | EvParseUrl _ | EvSetBaseUrl _ | EvGetConn _ | EvClient _ => true
  | _ => false
  end.

(** The entries lines 74-80 add. *)
Definition resolve_events (t : task) : list event :=
  if truthy (http_conn_id t) then
    if hook_truthy (http_hook t) && isinstance_HttpHook (http_hook t) then
      [LogInfo "`http_conn_id` is ignored when `http_hook` is provided."]
    else
      [LogInfo "`http_hook` is not provided or invalid. Trying `http_conn_id` to create HttpHook.";
       EvNewHttpHook (http_conn_id t)]
  else [].

(** The entries that can follow them, for a given [function] and [entity]. *)
Definition path_allowed (fn ent : pyobj) (ev : event) : bool :=
  match ev with
  | EvNewHttpHook _ => false
  | EvFunctionLookup _ | EvParameter _ _ | EvFunctionExecute => isinstance_str fn
  | EvEntitySetLookup _ | EvGetEntity _ | EvNav _ | EvGetEntities | EvQueryExecute
  | EvSchemaEntitySets | EvEntityGetattr _ => negb (isinstance_str fn) && truthy ent
  | _ => true
  end.

(** ** Errors *)

(** Line 63. *)
Definition selector_error : exn :=
  Exn AirflowException "Either `function` or `entity` needs to be provided.".

(** Line 83, as line 138 re-raises it. *)
Definition no_transport_error : exn :=
  Exn AirflowException
      (wrap_message (Some "creating http session")
         (Exn AirflowException "Cannot operate without `http_hook` or `http_conn_id`.")).

(** [sub] occurs in [s]. *)
Definition contains (s sub : string) : Prop :=
  exists pre post, s = (pre ++ sub ++ post)%string.

(** ** The result table *)

(** The records a table holds, when it was built from a list. *)
Definition table_records (t : DataFrame) : option (list data) :=
  match t with
  | DataFrame_from_dict (DList l) => Some l
  | DataFrame_from_dict _ => None
  | DataFrame_from_records rows => Some (map DDict rows)
  end.

(** The keys of a record. *)
Definition data_keys (d : data) : list string :=
  match d with DDict r => keys r | _ => [] end.

(** The column labels of a table built from a list of records: the keys of
    the records, each once, in order of first appearance. *)
Definition table_columns (t : DataFrame) : list string :=
  match table_records t with
  | Some l => rev (nodup string_dec (rev (flat_map data_keys l)))
  | None => []
  end.

(** The tables of the two examples. *)
Definition orders_table : DataFrame :=
  DataFrame_from_dict
    (DList [DDict [("id", DInt 1); ("total", DInt 100)];
            DDict [("id", DInt 2); ("total", DInt 50)]]).

Definition customers_table : DataFrame :=
  DataFrame_from_records
    [[("name", DStr "Ada"); ("city", DStr "Turin")];
     [("name", DStr "Bob"); ("city", DStr "Oslo")]].

(** What a successful run on the function path amounts to: the function [f]
    was looked up on the client, every item of [parameters] was bound on the
    request in order, the request was executed, and the table was built from
    what the response holds under "results". *)
Definition function_path_outcome (B : backend) (t : task) (f : string) (tbl : DataFrame)
  : Prop :=
  exists sess c rq0 rq response results before,
    pyodata_Client B (service_url t) sess = Ok c /\
    functions_getattr B c f = Ok rq0 /\
    fold_parameters B rq0 (items_of (parameters t)) = Ok rq /\
    function_execute B rq = Ok response /\
    getitem response "results" = Ok results /\
    tbl = DataFrame_from_dict results /\
    (forall l, results = DList l ->
       table_records tbl = Some l /\
       table_columns tbl = rev (nodup string_dec (rev (flat_map data_keys l)))) /\
    forallb (fun ev => negb (function_path_event ev)) before = true /\
    run_trace (execute B t) =
      before ++ [EvFunctionLookup f] ++
      map parameter_event (items_of (parameters t)) ++
      [EvFunctionExecute; EvDataFrame; EvCloseSession].

(** What a successful run on the entity path amounts to: the entity set named
    [entity] was looked up, one entity fetched by the items of [parameters],
    the property [p] navigated and its entities requested; the columns are
    the declared properties of the schema's entity set named [p], and every
    row holds exactly those. *)
Definition entity_path_outcome (B : backend) (t : task) (p : pyobj) (tbl : DataFrame)
  : Prop :=
  exists sess c es items er np q ds schema rows,
    pyodata_Client B (service_url t) sess = Ok c /\
    entity_sets_getattr B c (entity t) = Ok es /\
    parameters t = ParamDict items /\
    get_entity B es items = Ok er /\
    nav B er p = Ok np /\
    get_entities B np = Ok q /\
    query_execute B q = Ok ds /\
    schema_lookup (schema_entity_sets B c) p = Ok schema /\
    tbl = DataFrame_from_records rows /\
    Forall2 (fun d row => row_of_entity B d (es_proprties schema) row) ds rows.

(** ** Notions used to state the further properties *)

(** Line 65. *)
Definition service_url_error : exn :=
  Exn AirflowException "`service_url` needs to be provided.".


(** What the two paths log: their calls, their messages, the table. *)
Definition inner_event (ev : event) : bool :=
  match ev with
  | LogInfo _ | EvDataFrame => true
  | _ => function_path_event ev || entity_path_event ev
  end.

(** The executions of a request (lines 104 and 121). *)
Definition execution_event (ev : event) : bool :=
  match ev with EvFunctionExecute | EvQueryExecute => true | _ => false end.

Definition executions (evs : list event) : nat := length (filter execution_event evs).

(** The connection id of a handle that can open a session. *)
Definition transport_conn_id (h : hook_arg) : option pyobj :=
  match h with
  | HookInstance h0 | HookDuck h0 => Some (hook_conn_id h0)
  | _ => None
  end.

(** The log of a run, after the entries of the handle resolution: nothing
    when no handle is usable; the parsing of [service_url] alone when it, or
    the assignment of [base_url], fails; the opening of the session as the
    last entry when that fails; otherwise the construction of the client,
    what the branch on the selector logs, and the closing of the session. *)
Definition run_shape (B : backend) (t : task) (evs : list event) : Prop :=
  evs = [] \/
  evs = [EvParseUrl (service_url t)] \/
  exists u h,
    parse_url B (service_url t) = Ok u /\
    base_url h = Some (format_base_url u) /\
    transport_conn_id (resolved_hook t) = Some (hook_conn_id h) /\
    (evs = [EvParseUrl (service_url t); EvSetBaseUrl (format_base_url u); EvGetConn h] \/
     exists inner,
       forallb inner_event inner = true /\
       executions inner <= 1 /\
       evs = [EvParseUrl (service_url t); EvSetBaseUrl (format_base_url u); EvGetConn h;
              EvClient (service_url t)] ++ inner ++ [EvCloseSession]).

(** The closing of the session (the end of the [with] block of line 88). *)
Definition close_event (ev : event) : bool :=
  match ev with EvCloseSession => true | _ => false end.

(** The construction of the client (line 89), the first statement of the
    [with] block: it is reached exactly when [get_conn] returned a session. *)
Definition client_event (ev : event) : bool :=
  match ev with EvClient _ => true | _ => false end.

(** The opening of a session (line 88). *)
Definition get_conn_event (ev : event) : bool :=
  match ev with EvGetConn _ => true | _ => false end.

(** The first call of either path (lines 97 and 116). *)
Definition lookup_event (ev : event) : bool :=
  match ev with EvFunctionLookup _ | EvEntitySetLookup _ => true | _ => false end.

(** The labels the function path assigns (lines 95, 102, 106). *)
Definition function_labels (t : task) : list (option string) :=
  [Some ("preparing data request for function " ++ py_str (function t))%string;
   Some "sending request and recieving data";
   Some "creating result pandas DataFrame"].

(** The labels the entity path assigns (lines 114, 119, 123, 130). *)
Definition entity_labels (t : task) : list (option string) :=
  [Some ("preparing data request for entity set " ++ py_str (entity t))%string;
   Some "sending request and recieving data";
   Some "recieving headers";
   Some "creating result pandas DataFrame"].

Definition path_labels (t : task) : list (option string) :=
  if isinstance_str (function t) then function_labels t else entity_labels t.

(** Where a failed run stopped, by the label line 138 reports and the log:
    with no usable handle, before the first call; with one, before either
    path was entered; or inside the path the selector chose. *)
Definition failure_stage (t : task) (label : option string) (tr : list event) : Prop :=
  (hook_truthy (resolved_hook t) = false /\
   label = Some "creating http session" /\ tr = resolve_events t) \/
  (hook_truthy (resolved_hook t) = true /\
   label = None /\ existsb lookup_event tr = false) \/
  (hook_truthy (resolved_hook t) = true /\
   In label (path_labels t) /\ existsb lookup_event tr = true).

Definition set_http_conn_id (c : pyobj) (t : task) : task :=
  mkTask (http_hook t) c (service_url t) (function t) (entity t) (property t) (parameters t).

Definition parameter_ev (ev : event) : bool :=
  match ev with EvParameter _ _ => true | _ => false end.

Definition function_execute_event (ev : event) : bool :=
  match ev with EvFunctionExecute => true | _ => false end.

(** The bindings a log records, in order. *)
Definition bindings (evs : list event) : list event := filter parameter_ev evs.

(** Lines 74-89 get as far as the client [c]: the handle settled on can open
    a session, [service_url] parses, the session opens on the rewritten
    [base_url], and the client is built on it. *)
Definition session_opens (B : backend) (t : task) (c : Client B) : Prop :=
  exists cid u r,
    transport_conn_id (resolved_hook t) = Some cid /\
    parse_url B (service_url t) = Ok u /\
    get_conn B (mkHttpHook cid (Some (format_base_url u))) = Ok r /\
    pyodata_Client B (service_url t) (fst r) = Ok c.

(** The exception line 138 raises for [e] under the label [label]. *)
Definition step_error (label : string) (e : exn) : result (option DataFrame) :=
  Raise (Exn AirflowException (wrap_message (Some label) e)).

(** The request of lines 116-117 was prepared: the entity set looked up, the
    entity fetched by [items], the property [p] navigated and its entities
    requested, giving the query [q]. *)
Definition query_prepared (B : backend) (c : Client B) (t : task) (items : record)
           (p : pyobj) (q : QueryRequest B) : Prop :=
  exists es er np,
    entity_sets_getattr B c (entity t) = Ok es /\
    get_entity B es items = Ok er /\
    nav B er p = Ok np /\
    get_entities B np = Ok q.

(** * Part III: lemmas and theorems *)

(** ** The loops *)

Section Loops.
Variable B : backend.

Lemma extend_nil st : extend st [] = st.
Proof. destruct st; unfold extend; simpl. now rewrite app_nil_r. Qed.

Lemma extend_extend st a b : extend (extend st a) b = extend st (a ++ b).
Proof. unfold extend; simpl. now rewrite app_assoc. Qed.

Lemma bind_parameters_run items : forall request st,
  bind_parameters B request items st =
  (extend st (parameter_events B request items), fold_parameters B request items).
Proof.
  induction items as [|[name value] rest IH]; intros request st; simpl.
  - now rewrite extend_nil.
  - unfold bind, call, emit, ret, raise; simpl.
    destruct (parameter B request name value) as [request'|e]; simpl.
    + rewrite IH. unfold extend; simpl. now rewrite <- app_assoc.
    + reflexivity.
Qed.

Lemma row_of_run d columns : forall row st,
  row_of B d columns row st = (extend st (row_events B d columns), row_value B d columns row).
Proof.
  induction columns as [|col rest IH]; intros row st; simpl.
  - now rewrite extend_nil.
  - unfold bind, call, emit, ret, raise; simpl.
    destruct (entity_getattr B d col) as [v|e]; simpl.
    + rewrite IH. unfold extend; simpl. now rewrite <- app_assoc.
    + reflexivity.
Qed.

Lemma rows_of_run columns ds : forall st,
  rows_of B ds columns st = (extend st (rows_events B ds columns), rows_value B ds columns).
Proof.
  induction ds as [|d rest IH]; intros st; simpl.
  - now rewrite extend_nil.
  - unfold bind; rewrite row_of_run.
    destruct (row_value B d columns []) as [r|e]; simpl.
    + rewrite IH, extend_extend.
      destruct (rows_value B rest columns); reflexivity.
    + now rewrite app_nil_r.
Qed.

(** When every binding succeeds, the loop logs one entry per item, in order. *)
Lemma parameter_events_ok items : forall request request',
  fold_parameters B request items = Ok request' ->
  parameter_events B request items = map (fun kv => EvParameter (fst kv) (snd kv)) items.
Proof.
  induction items as [|[name value] rest IH]; intros request request' H; simpl in *.
  - reflexivity.
  - destruct (parameter B request name value) as [rq|e]; [|discriminate].
    f_equal. eapply IH; eauto.
Qed.

End Loops.

(** ** Running the monad by rewriting *)

Section Run.
Context {B : backend}.

Lemma bind_assoc {X Y Z} (m : M X) (f : X -> M Y) (g : Y -> M Z) st :
  bind (bind m f) g st = bind m (fun a => bind (f a) g) st.
Proof. unfold bind. destruct (m st) as [st' [a|e]]; reflexivity. Qed.

Lemma bind_ret {X Y} (a : X) (k : X -> M Y) st : bind (ret a) k st = k a st.
Proof. reflexivity. Qed.

Lemma bind_raise {X Y} e (k : X -> M Y) st : bind (raise e) k st = (st, Raise e).
Proof. reflexivity. Qed.

Lemma bind_get_self {Y} (k : task -> M Y) st : bind get_self k st = k (self st) st.
Proof. reflexivity. Qed.

Lemma bind_put_self {Y} t (k : unit -> M Y) st :
  bind (put_self t) k st = k tt (mkState t (step_msg st) (trace st)).
Proof. reflexivity. Qed.

Lemma bind_set_step {Y} s (k : unit -> M Y) st :
  bind (set_step s) k st = k tt (mkState (self st) s (trace st)).
Proof. reflexivity. Qed.

Lemma bind_emit {Y} ev (k : unit -> M Y) st :
  bind (emit ev) k st = k tt (mkState (self st) (step_msg st) (trace st ++ [ev])).
Proof. reflexivity. Qed.

Lemma bind_log_info {Y} msg (k : unit -> M Y) st :
  bind (log_info msg) k st =
  k tt (mkState (self st) (step_msg st) (trace st ++ [LogInfo msg])).
Proof. reflexivity. Qed.

Lemma bind_call {X Y} ev (r : result X) (k : X -> M Y) st :
  bind (call ev r) k st =
  match r with
  | Ok a => k a (mkState (self st) (step_msg st) (trace st ++ [ev]))
  | Raise e => (mkState (self st) (step_msg st) (trace st ++ [ev]), Raise e)
  end.
Proof. destruct r; reflexivity. Qed.

Lemma bind_with_session {X Y} (body : M X) (k : X -> M Y) st :
  bind (with_session body) k st =
  match bind body ret st with
  | (st', Ok a) =>
      k a (mkState (self st') (step_msg st') (trace st' ++ [EvCloseSession]))
  | (st', Raise e) =>
      (mkState (self st') (step_msg st') (trace st' ++ [EvCloseSession]), Raise e)
  end.
Proof. unfold with_session, bind, ret. destruct (body st) as [st' [a|e]]; reflexivity. Qed.

Lemma bind_bind_parameters {Y} rq items (k : _ -> M Y) st :
  bind (bind_parameters B rq items) k st =
  match fold_parameters B rq items with
  | Ok a => k a (mkState (self st) (step_msg st) (trace st ++ parameter_events B rq items))
  | Raise e =>
      (mkState (self st) (step_msg st) (trace st ++ parameter_events B rq items), Raise e)
  end.
Proof.
  unfold bind. rewrite bind_parameters_run.
  destruct (fold_parameters B rq items); reflexivity.
Qed.

Lemma bind_rows_of {Y} ds cols (k : _ -> M Y) st :
  bind (rows_of B ds cols) k st =
  match rows_value B ds cols with
  | Ok a => k a (mkState (self st) (step_msg st) (trace st ++ rows_events B ds cols))
  | Raise e =>
      (mkState (self st) (step_msg st) (trace st ++ rows_events B ds cols), Raise e)
  end.
Proof.
  unfold bind. rewrite rows_of_run.
  destruct (rows_value B ds cols); reflexivity.
Qed.

Lemma run_as_bind {X} (m : M X) st : m st = bind m ret st.
Proof. unfold bind, ret. destruct (m st) as [st' [a|e]]; reflexivity. Qed.

Lemma ret_run {X} (a : X) st : ret a st = (st, Ok a).
Proof. reflexivity. Qed.

Lemma raise_run {X} e st : @raise X e st = (st, Raise e).
Proof. reflexivity. Qed.

End Run.

(** A case split on a test or an answer: one that the context already
    determines is replaced by its value. *)
Ltac split_on x :=
  lazymatch x with
  | negb ?y => split_on y
  | andb ?y _ => split_on y
  | _ =>
      first [ match goal with H : x = _ |- _ => rewrite H end
            | destruct x eqn:? ]
  end.

(** One step of a run: the command at the head of a sequence is executed, a
    test or an answer that is not known yet is split into its cases. *)
Ltac mstep :=
  match goal with
  | |- context [bind (bind _ _) _ _] => rewrite bind_assoc
  | |- context [bind (ret _) _ _] => rewrite bind_ret
  | |- context [bind (raise _) _ _] => rewrite bind_raise
  | |- context [bind get_self _ _] => rewrite bind_get_self
  | |- context [bind (put_self _) _ _] => rewrite bind_put_self
  | |- context [bind (set_step _) _ _] => rewrite bind_set_step
  | |- context [bind (emit _) _ _] => rewrite bind_emit
  | |- context [bind (log_info _) _ _] => rewrite bind_log_info
  | |- context [bind (call _ _) _ _] => rewrite bind_call
  | |- context [bind (with_session _) _ _] => rewrite bind_with_session
  | |- context [bind (bind_parameters _ _ _) _ _] => rewrite bind_bind_parameters
  | |- context [bind (rows_of _ _ _) _ _] => rewrite bind_rows_of
  | |- context [ret _ _] => rewrite ret_run
  | |- context [raise _ _] => rewrite raise_run
  | |- context [bind (if ?b then _ else _) _ _] => split_on b
  | |- context [bind (match ?x with _ => _ end) _ _] => split_on x
  | |- context [match ?x with _ => _ end] =>
      lazymatch x with
      | context [match _ with _ => _ end] => fail
      | context [bind] => fail
      | _ => split_on x
      end
  end.

Ltac mcbn :=
  unfold set_http_hook, set_property, set_function, set_entity;
  cbn [self step_msg trace fst snd negb andb orb
       http_hook http_conn_id service_url function entity property parameters
       hook_truthy isinstance_HttpHook is_not_None isinstance_str
       hook_conn_id base_url HttpHook_init params_truthy
       run_self run_trace run_result app].

Ltac mrun := mcbn; repeat (mstep; mcbn; try discriminate).

(** ** The two paths, taken alone *)

Section Paths.
Variable B : backend.

Lemma function_path_frame c st1 st2 :
  function (self st1) = function (self st2) ->
  parameters (self st1) = parameters (self st2) ->
  snd (function_path B c st1) = snd (function_path B c st2) /\
  step_msg (fst (function_path B c st1)) = step_msg (fst (function_path B c st2)).
Proof.
  destruct st1 as [[h1 c1 u1 f1 e1 p1 ps1] s1 tr1], st2 as [[h2 c2 u2 f2 e2 p2 ps2] s2 tr2].
  cbn [self function parameters]. intros <- <-.
  rewrite !(run_as_bind (function_path B c)).
  unfold function_path. mrun; split; reflexivity.
Qed.

Lemma function_path_self c st : self (fst (function_path B c st)) = self st.
Proof.
  destruct st as [[h c0 u f e p ps] s tr].
  rewrite run_as_bind. unfold function_path. mrun; reflexivity.
Qed.

Lemma entity_path_frame c st1 st2 :
  entity (self st1) = entity (self st2) ->
  parameters (self st1) = parameters (self st2) ->
  effective_property (self st1) = effective_property (self st2) ->
  snd (entity_path B c st1) = snd (entity_path B c st2) /\
  step_msg (fst (entity_path B c st1)) = step_msg (fst (entity_path B c st2)).
Proof.
  destruct st1 as [[h1 c1 u1 f1 e1 p1 ps1] s1 tr1], st2 as [[h2 c2 u2 f2 e2 p2 ps2] s2 tr2].
  unfold effective_property; cbn [self entity property parameters]. intros <- <- Hp.
  rewrite !(run_as_bind (entity_path B c)).
  unfold entity_path.
  destruct (truthy p1) eqn:T1, (truthy p2) eqn:T2; subst; mrun; split; reflexivity.
Qed.

Lemma entity_path_self c st :
  self (fst (entity_path B c st)) = set_property (effective_property (self st)) (self st).
Proof.
  destruct st as [[h c0 u f e p ps] s tr].
  rewrite run_as_bind. unfold entity_path, effective_property.
  mrun; reflexivity.
Qed.

End Paths.

(** ** What the log can contain *)

Section PathLogs.
Variable B : backend.

Lemma parameter_events_all (P : event -> bool) :
  (forall n v, P (EvParameter n v) = true) ->
  forall items rq, forallb P (parameter_events B rq items) = true.
Proof.
  intros HP; induction items as [|[n v] rest IH]; intros rq; simpl; auto.
  rewrite HP; simpl. destruct (parameter B rq n v); auto.
Qed.

Lemma row_events_all (P : event -> bool) d :
  (forall n, P (EvEntityGetattr n) = true) ->
  forall cols, forallb P (row_events B d cols) = true.
Proof.
  intros HP; induction cols as [|c rest IH]; simpl; auto.
  rewrite HP; simpl. destruct (entity_getattr B d c); auto.
Qed.

Lemma rows_events_all (P : event -> bool) cols :
  (forall n, P (EvEntityGetattr n) = true) ->
  forall ds, forallb P (rows_events B ds cols) = true.
Proof.
  intros HP; induction ds as [|d rest IH]; simpl; auto.
  rewrite forallb_app, row_events_all by assumption; simpl.
  destruct (row_value B d cols []); auto.
Qed.

(** Closes a goal [exists evs, tr ++ ... = tr ++ evs /\ forallb P evs = true]
    at the end of a run. *)
Ltac close_log :=
  cbn [fst snd trace];
  rewrite <- ?app_assoc; cbn [app];
  first [ eexists; split; [ reflexivity | ]
        | exists []; split; [ now rewrite app_nil_r | reflexivity ] ];
  repeat first
    [ rewrite forallb_app
    | progress cbn [forallb andb negb path_allowed isinstance_str]
    | match goal with H : truthy _ = true |- _ => rewrite H end
    | rewrite parameter_events_all by (intros; reflexivity)
    | rewrite rows_events_all
        by (intros; cbn [path_allowed isinstance_str negb andb]; assumption) ];
  try reflexivity.

Lemma function_path_log c st :
  isinstance_str (function (self st)) = true ->
  exists evs, trace (fst (function_path B c st)) = trace st ++ evs /\
              forallb (path_allowed (function (self st)) (entity (self st))) evs = true.
Proof.
  destruct st as [[h c0 u f e p ps] s tr]. cbn [self function entity].
  intros Hf. destruct f; try discriminate.
  rewrite run_as_bind. unfold function_path. mrun; close_log.
Qed.

Lemma entity_path_log c st :
  isinstance_str (function (self st)) = false ->
  truthy (entity (self st)) = true ->
  exists evs, trace (fst (entity_path B c st)) = trace st ++ evs /\
              forallb (path_allowed (function (self st)) (entity (self st))) evs = true.
Proof.
  destruct st as [[h c0 u f e p ps] s tr]. cbn [self function entity].
  intros Hf He. destruct f; try discriminate.
  all: rewrite run_as_bind; unfold entity_path; mrun; close_log.
Qed.

Lemma dispatch_log c st :
  exists evs, trace (fst (dispatch B c st)) = trace st ++ evs /\
              forallb (path_allowed (function (self st)) (entity (self st))) evs = true.
Proof.
  unfold dispatch. rewrite bind_get_self.
  destruct (function (self st)) as [|f|b txt] eqn:Hf; cbn [is_not_None isinstance_str andb].
  - destruct (truthy (entity (self st))) eqn:He.
    + rewrite <- Hf. apply entity_path_log; [now rewrite Hf | assumption].
    + exists []. now rewrite app_nil_r.
  - rewrite <- Hf. apply function_path_log. now rewrite Hf.
  - destruct (truthy (entity (self st))) eqn:He.
    + rewrite <- Hf. apply entity_path_log; [now rewrite Hf | assumption].
    + exists []. now rewrite app_nil_r.
Qed.

End PathLogs.

(** ** A successful path, read backwards *)

Section PathResults.
Variable B : backend.

Lemma function_path_ok c st st' v :
  function_path B c st = (st', Ok v) ->
  exists rq0 rq response results,
    functions_getattr B c (py_str (function (self st))) = Ok rq0 /\
    fold_parameters B rq0 (items_of (parameters (self st))) = Ok rq /\
    function_execute B rq = Ok response /\
    getitem response "results" = Ok results /\
    v = Some (DataFrame_from_dict results) /\
    trace st' =
      trace st ++ entity_ignored_log (self st) ++
      [EvFunctionLookup (py_str (function (self st)))] ++
      map parameter_event (items_of (parameters (self st))) ++
      [EvFunctionExecute; EvDataFrame].
Proof.
  destruct st as [[h c0 u f e p ps] s tr].
  unfold entity_ignored_log. cbn [self function parameters entity].
  rewrite run_as_bind. unfold function_path. mrun.
  all: intros H; injection H as <- <-; cbn [trace].
  all: repeat match goal with
         | H : params_truthy ?ps = false |- _ =>
             destruct ps as [[|? ?]|[] ?]; try discriminate; clear H
         end; cbn [items_of map].
  all: do 4 eexists; repeat split; try eassumption; try reflexivity.
  all: rewrite <- ?app_assoc; cbn [app];
    erewrite ?parameter_events_ok by eassumption; reflexivity.
Qed.

(** A successful entity path: every call answered, in this order. *)
Lemma entity_path_ok c st st' v :
  entity_path B c st = (st', Ok v) ->
  let t := self st in
  let p := effective_property t in
  exists es items er np q ds schema rows,
    entity_sets_getattr B c (entity t) = Ok es /\
    parameters t = ParamDict items /\
    get_entity B es items = Ok er /\
    nav B er p = Ok np /\
    get_entities B np = Ok q /\
    query_execute B q = Ok ds /\
    schema_lookup (schema_entity_sets B c) p = Ok schema /\
    rows_value B ds (es_proprties schema) = Ok rows /\
    v = Some (DataFrame_from_records rows) /\
    property (self st') = p /\
    trace st' =
      trace st ++ property_fill_log t ++
      [EvEntitySetLookup (entity t); EvGetEntity items; EvNav p; EvGetEntities;
       EvQueryExecute; EvSchemaEntitySets] ++
      rows_events B ds (es_proprties schema) ++ [EvDataFrame].
Proof.
  destruct st as [[h c0 u f e p ps] s tr].
  unfold effective_property, property_fill_log.
  cbn [self function parameters entity property].
  rewrite run_as_bind. unfold entity_path. mrun.
  all: intros H; injection H as <- <-; cbn [self property trace].
  all: do 8 eexists; repeat split; try eassumption; try reflexivity.
  all: rewrite <- ?app_assoc; reflexivity.
Qed.

Lemma dispatch_frame c st1 st2 :
  function (self st1) = function (self st2) ->
  entity (self st1) = entity (self st2) ->
  parameters (self st1) = parameters (self st2) ->
  effective_property (self st1) = effective_property (self st2) ->
  step_msg st1 = step_msg st2 ->
  snd (dispatch B c st1) = snd (dispatch B c st2) /\
  step_msg (fst (dispatch B c st1)) = step_msg (fst (dispatch B c st2)).
Proof.
  intros Hf He Hp Hq Hs. unfold dispatch. rewrite !bind_get_self, <- Hf, <- He.
  destruct (is_not_None (function (self st1)) && isinstance_str (function (self st1))).
  - now apply function_path_frame.
  - destruct (truthy (entity (self st1))).
    + now apply entity_path_frame.
    + now split.
Qed.

(** On the function path nothing of the entity is read. *)
Lemma dispatch_frame_function c st1 st2 :
  isinstance_str (function (self st1)) = true ->
  function (self st1) = function (self st2) ->
  parameters (self st1) = parameters (self st2) ->
  snd (dispatch B c st1) = snd (dispatch B c st2) /\
  step_msg (fst (dispatch B c st1)) = step_msg (fst (dispatch B c st2)).
Proof.
  intros Hs Hf Hp. unfold dispatch. rewrite !bind_get_self, <- Hf.
  destruct (function (self st1)) eqn:E; try discriminate.
  cbn [is_not_None isinstance_str andb]. apply function_path_frame; congruence.
Qed.

Lemma dispatch_self c st : self (fst (dispatch B c st)) = after_dispatch (self st).
Proof.
  unfold dispatch, after_dispatch. rewrite bind_get_self.
  destruct (is_not_None (function (self st)) && isinstance_str (function (self st))).
  - apply function_path_self.
  - destruct (truthy (entity (self st))); [apply entity_path_self | reflexivity].
Qed.

End PathResults.

(** ** The whole run *)

Lemma execute_unfold B t :
  execute B t =
  match bind (execute_try B) ret (mkState t None []) with
  | (st, r) =>
      {| run_self := self st;
         run_trace := trace st;
         run_result :=
           match r with
           | Ok v => Ok v
           | Raise e => Raise (Exn AirflowException (wrap_message (step_msg st) e))
           end |}
  end.
Proof. unfold execute. rewrite <- run_as_bind. reflexivity. Qed.

Ltac unfold_prelude :=
  unfold execute_try, resolve_transport, hook_get_conn, assign_base_url.

Lemma execute_ok_inv B t v :
  run_result (execute B t) = Ok v ->
  exists sess c st st' pre,
    pyodata_Client B (service_url t) sess = Ok c /\
    dispatch B c st = (st', Ok v) /\
    function (self st) = function t /\
    entity (self st) = entity t /\
    property (self st) = property t /\
    parameters (self st) = parameters t /\
    trace st = resolve_events t ++ pre /\
    forallb prelude_event pre = true /\
    run_self (execute B t) = self st' /\
    run_trace (execute B t) = trace st' ++ [EvCloseSession].
Proof.
  destruct t as [hk cid url fn ent prop ps].
  rewrite execute_unfold. unfold_prelude. unfold resolve_events.
  mrun.
  all: rewrite <- run_as_bind.
  all: match goal with |- context [dispatch ?B' ?c ?st] =>
         destruct (dispatch B' c st) as [st' [v'|e']] eqn:D end; mcbn; try discriminate.
  all: intros H; injection H as <-.
  all: do 5 eexists; split; [ eassumption | split; [ exact D | ] ].
  all: unfold ret; cbn [self trace function entity property parameters run_self run_trace].
  all: repeat split; reflexivity.
Qed.

(** Every run logs the entries of the handle resolution, then only entries
    its [function] and [entity] allow. *)
Lemma execute_log B t :
  exists evs,
    run_trace (execute B t) = resolve_events t ++ evs /\
    forallb (path_allowed (function t) (entity t)) evs = true.
Proof.
  destruct t as [hk cid url fn ent prop ps].
  rewrite execute_unfold. unfold_prelude. unfold resolve_events.
  cbn [function entity].
  mrun.
  all: try rewrite <- run_as_bind.
  all: try match goal with |- context [dispatch ?B' ?c ?st] =>
         destruct (dispatch_log B' c st) as (evs & Hevs & Hall);
         destruct (dispatch B' c st) as [st' [v'|e']] eqn:D;
         cbn [fst snd trace self function entity] in Hevs, Hall
       end.
  all: unfold ret; mcbn; rewrite ?Hevs, <- ?app_assoc; cbn [app].
  all: eexists; split; [ reflexivity | ].
  all: cbn [forallb path_allowed andb]; rewrite ?forallb_app, ?Hall; reflexivity.
Qed.

(** ** Rows built from a schema *)

Section Rows.
Variable B : backend.

Lemma keys_dict_set {V} k (v : V) d k' :
  In k' (keys (dict_set k v d)) <-> k' = k \/ In k' (keys d).
Proof.
  induction d as [|[k0 v0] d IH]; simpl.
  - intuition.
  - destruct (String.eqb k k0) eqn:E; simpl.
    + apply String.eqb_eq in E; subst. intuition.
    + rewrite IH. intuition.
Qed.

Lemma NoDup_dict_set {V} k (v : V) d :
  NoDup (keys d) -> NoDup (keys (dict_set k v d)).
Proof.
  induction d as [|[k0 v0] d IH]; simpl; intros H.
  - constructor; [intros [] | constructor].
  - inversion H as [|? ? Hin Hnd]; subst.
    destruct (String.eqb k k0) eqn:E; simpl.
    + now constructor.
    + constructor; [|now apply IH].
      rewrite keys_dict_set. intros [->|Hk]; [|contradiction].
      now rewrite String.eqb_refl in E.
Qed.

Lemma dict_get_set_same {V} k (v : V) d : dict_get k (dict_set k v d) = Some v.
Proof.
  induction d as [|[k0 v0] d IH]; simpl.
  - now rewrite String.eqb_refl.
  - destruct (String.eqb k k0) eqn:E; simpl; rewrite E; auto.
Qed.

Lemma dict_get_set_other {V} k (v : V) d k' :
  k' <> k -> dict_get k' (dict_set k v d) = dict_get k' d.
Proof.
  intros Hne. induction d as [|[k0 v0] d IH]; simpl.
  - destruct (String.eqb k' k) eqn:E; auto.
    apply String.eqb_eq in E. contradiction.
  - destruct (String.eqb k k0) eqn:E; simpl.
    + apply String.eqb_eq in E; subst.
      destruct (String.eqb k' k0) eqn:E'; auto.
      apply String.eqb_eq in E'. contradiction.
    + now rewrite IH.
Qed.

Lemma row_value_spec d cols : forall acc row,
  row_value B d cols acc = Ok row ->
  (NoDup (keys acc) -> NoDup (keys row)) /\
  (forall k, In k (keys row) <-> In k (keys acc) \/ In k cols) /\
  (forall k, ~ In k cols -> dict_get k row = dict_get k acc) /\
  (forall k, In k cols ->
     exists v, entity_getattr B d k = Ok v /\ dict_get k row = Some v).
Proof.
  induction cols as [|c rest IH]; intros acc row H; simpl in H.
  - injection H as <-.
    split; [auto | split; [simpl; tauto | split; [auto | intros k []]]].
  - destruct (entity_getattr B d c) as [v|e] eqn:E; [|discriminate].
    destruct (IH _ _ H) as (Hnd & Hk & Hout & Hin).
    split; [|split; [|split]].
    + intros Hacc. apply Hnd. now apply NoDup_dict_set.
    + intros k. rewrite Hk, keys_dict_set. simpl. intuition.
    + intros k Hk'. simpl in Hk'.
      rewrite Hout by tauto. apply dict_get_set_other. intuition.
    + intros k [<-|Hk'].
      * destruct (in_dec string_dec c rest) as [Hc|Hc]; [now apply Hin|].
        exists v. split; [assumption|].
        rewrite Hout by assumption. apply dict_get_set_same.
      * now apply Hin.
Qed.

Lemma rows_value_spec cols : forall ds rows,
  rows_value B ds cols = Ok rows ->
  Forall2 (fun d row => row_of_entity B d cols row) ds rows.
Proof.
  induction ds as [|d rest IH]; intros rows H; simpl in H.
  - injection H as <-. constructor.
  - destruct (row_value B d cols []) as [r|e] eqn:E; [|discriminate].
    destruct (rows_value B rest cols) as [rs|e]; [|discriminate].
    injection H as <-. constructor; [|now apply IH].
    destruct (row_value_spec _ _ _ _ E) as (Hnd & Hk & _ & Hin).
    split; [|split].
    + apply Hnd. constructor.
    + intros k. rewrite Hk. simpl. tauto.
    + assumption.
Qed.

End Rows.

(** ** Two runs that must agree *)

Lemma dispatch_frame_selector B c st1 st2 :
  function (self st1) = function (self st2) ->
  parameters (self st1) = parameters (self st2) ->
  step_msg st1 = step_msg st2 ->
  (isinstance_str (function (self st1)) = true \/
   (entity (self st1) = entity (self st2) /\
    effective_property (self st1) = effective_property (self st2))) ->
  snd (dispatch B c st1) = snd (dispatch B c st2) /\
  step_msg (fst (dispatch B c st1)) = step_msg (fst (dispatch B c st2)).
Proof.
  intros Hf Hp Hs [Hstr|[He Hq]].
  - now apply dispatch_frame_function.
  - now apply dispatch_frame.
Qed.

Lemma execute_result_frame B t1 t2 :
  same_transport (resolved_hook t1) (resolved_hook t2) ->
  service_url t1 = service_url t2 ->
  function t1 = function t2 ->
  parameters t1 = parameters t2 ->
  (isinstance_str (function t1) = true \/
   (entity t1 = entity t2 /\ effective_property t1 = effective_property t2)) ->
  run_result (execute B t1) = run_result (execute B t2).
Proof.
  destruct t1 as [hk1 cid1 url fn ent1 prop1 ps], t2 as [hk2 cid2 url2 fn2 ent2 prop2 ps2].
  unfold resolved_hook, effective_property.
  cbn [http_hook http_conn_id service_url function parameters entity property].
  intros Hh Hu Hf Hp Hsel; subst url2 fn2 ps2.
  rewrite !execute_unfold. unfold_prelude.
  destruct (truthy cid1) eqn:C1, (truthy cid2) eqn:C2;
    destruct hk1 as [|[i1 b1]|[i1 b1]|[|] e1], hk2 as [|[i2 b2]|[i2 b2]|[|] e2];
    cbn [hook_truthy isinstance_HttpHook andb same_transport hook_conn_id HttpHook_init] in Hh;
    try contradiction; try discriminate (proj1 Hh); try (destruct Hh; subst); subst.
  all: mrun.
  all: try reflexivity.
  all: try rewrite <- !run_as_bind.
  all: try match goal with
       | |- ?L = ?R =>
           match L with
           | context [dispatch ?B' ?c ?s1] =>
               match R with
               | context [dispatch _ _ ?s2] =>
                   destruct (dispatch_frame_selector B' c s1 s2) as [Hr Hs];
                   [ reflexivity | reflexivity | reflexivity | exact Hsel | ];
                   destruct (dispatch B' c s1) as [s1' r1];
                   destruct (dispatch B' c s2) as [s2' r2];
                   cbn [fst snd] in Hr, Hs; subst r2
               end
           end
       end.
  all: try (destruct r1; unfold ret; cbn [run_result step_msg]; rewrite ?Hs; reflexivity).
Qed.

(** The instance a successful run leaves behind behaves like the one it
    started from. *)
Lemma execute_self_ok B t r :
  run_result (execute B t) = Ok r ->
  let t' := run_self (execute B t) in
  same_transport (resolved_hook t') (resolved_hook t) /\
  service_url t' = service_url t /\
  function t' = function t /\
  parameters t' = parameters t /\
  (isinstance_str (function t') = true \/
   (entity t' = entity t /\ effective_property t' = effective_property t)).
Proof.
  destruct t as [hk cid url fn ent prop ps].
  rewrite execute_unfold. unfold_prelude. unfold resolved_hook.
  mrun.
  all: rewrite <- run_as_bind.
  all: match goal with |- context [dispatch ?B' ?c ?st] =>
         pose proof (dispatch_self B' c st) as Hself;
         destruct (dispatch B' c st) as [st' [v'|e']] eqn:D
       end; mcbn; try discriminate.
  all: intros _; unfold ret; cbn [fst self run_self] in *; rewrite Hself.
  all: unfold after_dispatch, effective_property; mcbn.
  all: destruct fn as [|f|fb ft]; cbn [is_not_None isinstance_str andb]; mcbn.
  all: try (destruct (truthy ent) eqn:He; mcbn).
  all: try (destruct (truthy prop) eqn:Hp; mcbn).
  all: rewrite ?Heqb, ?He, ?Hp; mcbn.
  all: repeat split; try reflexivity; auto.
Qed.

(** ** Which path a run takes *)

Lemma forallb_impl {A} (P Q : A -> bool) l :
  (forall x, P x = true -> Q x = true) ->
  forallb P l = true -> forallb Q l = true.
Proof.
  intros HPQ. induction l as [|x l IH]; simpl; [reflexivity|].
  rewrite !andb_true_iff. intros [Hx Hl]. auto.
Qed.

Lemma same_transport_refl h : same_transport h h.
Proof. destruct h; simpl; auto. Qed.

(** A successful branch on the selector is one of three things. *)
Lemma dispatch_ok B c st st' v :
  dispatch B c st = (st', Ok v) ->
  (isinstance_str (function (self st)) = true /\ function_path B c st = (st', Ok v)) \/
  (isinstance_str (function (self st)) = false /\ truthy (entity (self st)) = true /\
   entity_path B c st = (st', Ok v)) \/
  (isinstance_str (function (self st)) = false /\ truthy (entity (self st)) = false /\
   v = None /\ st' = st).
Proof.
  unfold dispatch. rewrite bind_get_self.
  destruct (function (self st)) as [|f|b txt]; cbn [is_not_None isinstance_str andb];
    try (destruct (truthy (entity (self st))));
    intros H; auto.
  - right; right. rewrite ret_run in H. injection H as <- <-. auto.
  - right; right. rewrite ret_run in H. injection H as <- <-. auto.
Qed.

Lemma resolve_events_transport t :
  forallb (fun ev => negb (function_path_event ev) && negb (entity_path_event ev))
          (resolve_events t) = true.
Proof.
  unfold resolve_events.
  destruct (truthy (http_conn_id t));
    [destruct (hook_truthy (http_hook t) && isinstance_HttpHook (http_hook t))|];
    reflexivity.
Qed.

Lemma prelude_event_transport ev :
  prelude_event ev = true ->
  negb (function_path_event ev) && negb (entity_path_event ev) = true.
Proof. destruct ev; simpl; congruence. Qed.

(** With a string for [function], no entry of the entity path is logged. *)
Lemma execute_log_function B t :
  isinstance_str (function t) = true ->
  forallb (fun ev => negb (entity_path_event ev)) (run_trace (execute B t)) = true.
Proof.
  intros Hf. destruct (execute_log B t) as (evs & -> & Hall).
  rewrite forallb_app. apply andb_true_iff. split.
  - eapply forallb_impl; [|apply resolve_events_transport].
    intros ev. rewrite andb_true_iff. tauto.
  - eapply forallb_impl; [|exact Hall].
    intros ev. unfold path_allowed. rewrite Hf. destruct ev; simpl; congruence.
Qed.

(** Without one, no entry of the function path is logged. *)
Lemma execute_log_not_function B t :
  isinstance_str (function t) = false ->
  forallb (fun ev => negb (function_path_event ev)) (run_trace (execute B t)) = true.
Proof.
  intros Hf. destruct (execute_log B t) as (evs & -> & Hall).
  rewrite forallb_app. apply andb_true_iff. split.
  - eapply forallb_impl; [|apply resolve_events_transport].
    intros ev. rewrite andb_true_iff. tauto.
  - eapply forallb_impl; [|exact Hall].
    intros ev. unfold path_allowed. rewrite Hf. destruct ev; simpl; congruence.
Qed.

(** Without a string for [function] and without a true [entity], neither. *)
Lemma execute_log_no_selector B t :
  isinstance_str (function t) = false ->
  truthy (entity t) = false ->
  forallb (fun ev => negb (function_path_event ev) && negb (entity_path_event ev))
          (run_trace (execute B t)) = true.
Proof.
  intros Hf He. destruct (execute_log B t) as (evs & -> & Hall).
  rewrite forallb_app. apply andb_true_iff. split.
  - apply resolve_events_transport.
  - eapply forallb_impl; [|exact Hall].
    intros ev. unfold path_allowed. rewrite Hf, He. destruct ev; simpl; congruence.
Qed.

(** [execute] returns [None] only when neither path is taken. *)
Lemma execute_None_only_without_selector B t :
  run_result (execute B t) = Ok None ->
  isinstance_str (function t) = false /\ truthy (entity t) = false.
Proof.
  intros H.
  destruct (execute_ok_inv B t None H)
    as (sess & c & st & st' & pre & _ & D & Hf & He & _).
  rewrite <- Hf, <- He.
  destruct (dispatch_ok _ _ _ _ _ D) as [[_ P]|[(_ & _ & P)|(? & ? & _)]]; [| |auto].
  - apply function_path_ok in P. destruct P as (? & ? & ? & ? & _ & _ & _ & _ & P & _).
    discriminate.
  - apply entity_path_ok in P.
    destruct P as (? & ? & ? & ? & ? & ? & ? & ? & _ & _ & _ & _ & _ & _ & _ & _ & P & _).
    discriminate.
Qed.

(** A successful run took one of the two paths, or neither. *)
Lemma execute_ok_paths B t v :
  run_result (execute B t) = Ok v ->
  (isinstance_str (function t) = true /\
   exists d, v = Some (DataFrame_from_dict d) /\
             In (EvFunctionLookup (py_str (function t))) (run_trace (execute B t))) \/
  (isinstance_str (function t) = false /\ truthy (entity t) = true /\
   exists rows, v = Some (DataFrame_from_records rows) /\
                In (EvEntitySetLookup (entity t)) (run_trace (execute B t))) \/
  (isinstance_str (function t) = false /\ truthy (entity t) = false /\ v = None).
Proof.
  intros H.
  destruct (execute_ok_inv B t _ H)
    as (sess & c & st & st' & pre & Hc & D & Hf & He & Hp & Hps & Htr & Hpre & Hself & Hrun).
  rewrite <- Hf, <- He, Hrun.
  destruct (dispatch_ok _ _ _ _ _ D) as [[Hn P]|[(Hn & Ht & P)|(Hn & Ht & -> & _)]].
  - left. split; [assumption|].
    apply function_path_ok in P.
    destruct P as (rq0 & rq & response & results & _ & _ & _ & _ & -> & T).
    exists results. split; [reflexivity|].
    rewrite T, !in_app_iff. simpl. tauto.
  - right; left. split; [assumption|]. split; [assumption|].
    apply entity_path_ok in P. cbv zeta in P.
    destruct P as (es & items & er & np & q & ds & schema & rows &
                   _ & _ & _ & _ & _ & _ & _ & _ & -> & _ & T).
    exists rows. split; [reflexivity|].
    rewrite T, !in_app_iff. simpl. tauto.
  - right; right. auto.
Qed.

Lemma path_allowed_not_new_hook fn ent evs :
  forallb (path_allowed fn ent) evs = true -> existsb new_hook_event evs = false.
Proof.
  induction evs as [|ev evs IH]; simpl; [reflexivity|].
  rewrite andb_true_iff. intros [Hev Hall]. rewrite (IH Hall), orb_false_r.
  destruct ev; simpl in *; congruence.
Qed.

(** ** Messages *)

Lemma string_append_assoc (a b c : string) :
  ((a ++ b) ++ c = a ++ b ++ c)%string.
Proof. induction a as [|x a IH]; simpl; [reflexivity | now rewrite IH]. Qed.

Lemma string_append_nil_r (a : string) : (a ++ EmptyString = a)%string.
Proof. induction a as [|x a IH]; simpl; [reflexivity | now rewrite IH]. Qed.

Lemma wrap_message_contains step e :
  contains (wrap_message step e) (str_option step) /\
  contains (wrap_message step e) (exn_str e).
Proof.
  unfold wrap_message, contains. split.
  - exists ("Error while step " ++ dquote)%string, (dquote ++ ", error: " ++ exn_str e)%string.
    now rewrite string_append_assoc.
  - exists ("Error while step " ++ dquote ++ str_option step ++ dquote ++ ", error: ")%string,
      EmptyString.
    now rewrite string_append_nil_r, !string_append_assoc.
Qed.

(** Whatever is raised inside the [try] leaves [execute] as one
    [AirflowException] whose message holds the step label of that moment and
    the text of the original exception. *)
Lemma execute_error_is_wrapped B t e' :
  run_result (execute B t) = Raise e' ->
  exists st e,
    execute_try B (mkState t None []) = (st, Raise e) /\
    e' = Exn AirflowException (wrap_message (step_msg st) e) /\
    contains (exn_str e') (str_option (step_msg st)) /\
    contains (exn_str e') (exn_str e).
Proof.
  unfold execute.
  destruct (execute_try B (mkState t None [])) as [st [v|e]]; cbn [run_result];
    [discriminate|].
  intros H; injection H as <-.
  exists st, e. repeat split; apply wrap_message_contains.
Qed.

(** * The claims *)

(** ** Construction *)

(** The first check of [__init__] reads [property] and [function]; [entity]
    plays no part in it. *)
Lemma init_selector_check hook conn url fn ent prop ps :
  truthy prop = false -> truthy fn = false ->
  init hook conn url fn ent prop ps = Raise selector_error.
Proof. intros Hp Hf. unfold init. cbn. now rewrite Hp, Hf. Qed.

(** C1 (the code departs from the claim).  With [function] and [property]
    absent, construction raises the selector error whatever [entity] is, so a
    task given a non-empty [entity] alone cannot be built; and with [function]
    and [entity] both absent but a [property] given, construction succeeds. *)
Theorem init_selector_check_reads_property :
  (forall hook conn url ent ps,
     init hook conn url PyNone ent PyNone ps = Raise selector_error) /\
  init Stub.hook PyNone Stub.url PyNone (PyStr "Customers") PyNone (ParamDict [("Id", DStr "C1")])
    = Raise selector_error /\
  init Stub.hook PyNone Stub.url PyNone PyNone (PyStr "Orders") (ParamDict [])
    = Ok Stub.property_only.
Proof. repeat split. Qed.

(** C7 (the code departs from the claim).  When the first two checks pass and
    [parameters] is not a dict, the exception that leaves [__init__] is the
    [NameError] of the f-string at line 67, not a [TypeError]. *)
Theorem init_non_mapping_parameters_raise_NameError hook conn url fn ent prop b n :
  truthy prop || truthy fn = true ->
  truthy url = true ->
  init hook conn url fn ent prop (ParamOther b n) =
  Raise (Exn NameError "name 'parameter' is not defined").
Proof.
  intros Hsel Hurl. unfold init. cbn [property function service_url parameters].
  rewrite <- negb_orb, Hsel, Hurl. reflexivity.
Qed.

Lemma init_non_mapping_parameters_raise_NameError_witness :
  init Stub.hook PyNone Stub.url (PyStr "GetOrders") PyNone PyNone (ParamOther true "list") =
  Raise (Exn NameError "name 'parameter' is not defined").
Proof.
  apply init_non_mapping_parameters_raise_NameError; reflexivity.
Defined.

(** ** The value returned *)

(** C2 (the code departs from the claim).  The task with only [property] given
    passes construction, and its [execute] returns [None]. *)
Theorem execute_returns_None_without_selector :
  init Stub.hook PyNone Stub.url PyNone PyNone (PyStr "Orders") (ParamDict [])
    = Ok Stub.property_only /\
  run_result (execute Stub.shop Stub.property_only) = Ok None.
Proof. split; reflexivity. Qed.

(** The part of C2 that holds: an empty list of results, on either path,
    gives a table of no rows. *)
Lemma empty_results_give_empty_tables :
  run_result (execute Stub.empty_shop Stub.get_orders) =
    Ok (Some (DataFrame_from_dict (DList []))) /\
  run_result (execute Stub.empty_shop Stub.customers_of_C1) =
    Ok (Some (DataFrame_from_records [])).
Proof. split; reflexivity. Qed.

(** ** Errors *)

(** C3 (the code departs from the claim).  When [get_conn] of a supplied
    handle raises, no step label has been set: the surfaced message carries
    the label [None], not "creating http session". *)
Theorem session_failure_is_labelled_None B t h u e :
  truthy (http_conn_id t) = false ->
  http_hook t = HookInstance h ->
  parse_url B (service_url t) = Ok u ->
  get_conn B (mkHttpHook (hook_conn_id h) (Some (format_base_url u))) = Raise e ->
  run_result (execute B t) = Raise (Exn AirflowException (wrap_message None e)).
Proof.
  destruct t as [hk cid url fn ent prop ps].
  cbn [http_hook http_conn_id service_url]. intros Hc -> Hu Hg.
  rewrite execute_unfold. unfold_prelude. mrun. reflexivity.
Qed.

Lemma session_failure_is_labelled_None_witness :
  run_result (execute Stub.offline Stub.get_orders) =
  Raise (Exn AirflowException
           (wrap_message None (Exn AirflowException "The conn_id `sap` isn't defined"))).
Proof.
  apply (session_failure_is_labelled_None Stub.offline Stub.get_orders
           (HttpHook_init (PyStr "sap"))
           (mkUrl (Some "https") (Some "sap.example.com") (Some 8443%Z)));
    reflexivity.
Defined.

(** ** The entity path *)

(** C4.  On the entity path an absent [property] is replaced by [entity]; the
    rows of the table are built from the declared properties of the schema's
    entity set of that name: the keys of every row are exactly those
    properties, and an attribute of a returned entity that the schema does
    not declare is in no row. *)
Theorem entity_path_rows_follow_schema B t tbl :
  isinstance_str (function t) = false ->
  truthy (entity t) = true ->
  run_result (execute B t) = Ok (Some tbl) ->
  let p := if truthy (property t) then property t else entity t in
  property (run_self (execute B t)) = p /\
  entity_path_outcome B t p tbl.
Proof.
  intros Hfn Hent H.
  destruct (execute_ok_inv B t _ H)
    as (sess & c & st & st' & pre & Hc & D & Hf & He & Hp & Hps & Htr & Hpre & Hself & Hrun).
  destruct (dispatch_ok _ _ _ _ _ D) as [[Hn _]|[(_ & _ & P)|(_ & Hn & _)]];
    [rewrite Hf, Hfn in Hn; discriminate | | rewrite He, Hent in Hn; discriminate].
  apply entity_path_ok in P. cbv zeta in P. unfold effective_property in P.
  rewrite He, Hp, Hps in P.
  destruct P as (es & items & er & np & q & ds & schema & rows &
                 A1 & A2 & A3 & A4 & A5 & A6 & A7 & A8 & V & Q & _).
  injection V as ->. cbv zeta. split.
  - now rewrite Hself.
  - exists sess, c, es, items, er, np, q, ds, schema, rows.
    repeat split; try assumption.
    now apply rows_value_spec.
Qed.

Lemma entity_path_rows_follow_schema_witness :
  property (run_self (execute Stub.shop Stub.customers_of_C1)) = PyStr "Customers" /\
  entity_path_outcome Stub.shop Stub.customers_of_C1 (PyStr "Customers") customers_table.
Proof.
  apply (entity_path_rows_follow_schema Stub.shop Stub.customers_of_C1); reflexivity.
Defined.

(** The example of the specification: two rows with the keys [name] and
    [city] only, although the returned entities also carry [__metadata]. *)
Lemma customers_example :
  run_result (execute Stub.shop Stub.customers_of_C1) = Ok (Some customers_table) /\
  map (fun d => keys d) Stub.customers =
    [["__metadata"; "name"; "city"]; ["__metadata"; "name"; "city"]] /\
  table_columns customers_table = ["name"; "city"].
Proof. repeat split. Qed.

(** ** The function path *)

(** C5.  On the function path every item of [parameters] is bound on the
    request, in order, between the lookup of the function and its execution;
    the table is built from what the response holds under "results": its
    records are that list, its columns their keys, and it has no rows when the
    list is empty. *)
Theorem function_path_binds_parameters_and_returns_results B t f tbl :
  function t = PyStr f ->
  run_result (execute B t) = Ok (Some tbl) ->
  function_path_outcome B t f tbl.
Proof.
  intros Hfn H.
  destruct (execute_ok_inv B t _ H)
    as (sess & c & st & st' & pre & Hc & D & Hf & He & Hp & Hps & Htr & Hpre & _ & Hrun).
  destruct (dispatch_ok _ _ _ _ _ D) as [[_ P]|[(Hn & _)|(Hn & _)]];
    try (rewrite Hf, Hfn in Hn; discriminate).
  apply function_path_ok in P.
  destruct P as (rq0 & rq & response & results & L & F & X & G & V & T).
  rewrite Hf, Hfn in L, T. cbn [py_str] in L, T. rewrite Hps in F, T.
  injection V as ->.
  exists sess, c, rq0, rq, response, results,
    (resolve_events t ++ pre ++ entity_ignored_log (self st)).
  repeat split; try assumption; try reflexivity.
  - now subst results.
  - now subst results.
  - rewrite !forallb_app, !andb_true_iff. repeat split.
    + eapply forallb_impl; [|apply resolve_events_transport].
      intros ev. rewrite andb_true_iff. tauto.
    + eapply forallb_impl; [|exact Hpre].
      intros ev Hev. apply prelude_event_transport in Hev.
      apply andb_true_iff in Hev. tauto.
    + unfold entity_ignored_log. destruct (is_not_None (entity (self st))); reflexivity.
  - rewrite Hrun, T, Htr. rewrite <- !app_assoc. reflexivity.
Qed.

Lemma function_path_binds_parameters_and_returns_results_witness :
  function_path_outcome Stub.shop Stub.get_orders "GetOrders" orders_table.
Proof.
  apply function_path_binds_parameters_and_returns_results; reflexivity.
Defined.

(** The example of the specification: the two records, verbatim, with
    columns [id] and [total]. *)
Lemma get_orders_example :
  run_result (execute Stub.shop Stub.get_orders) = Ok (Some orders_table) /\
  table_records orders_table =
    Some [DDict [("id", DInt 1); ("total", DInt 100)];
          DDict [("id", DInt 2); ("total", DInt 50)]] /\
  table_columns orders_table = ["id"; "total"].
Proof. repeat split. Qed.

(** ** The selector *)

(** C6.  With a string for [function], the result of [execute] is the one the
    same task gives with [entity] absent, whatever [entity] is, and nothing of
    the entity path is logged. *)
Theorem function_takes_priority_over_entity B t f e :
  let t1 := set_entity e (set_function (PyStr f) t) in
  let t0 := set_entity PyNone (set_function (PyStr f) t) in
  run_result (execute B t1) = run_result (execute B t0) /\
  forallb (fun ev => negb (entity_path_event ev)) (run_trace (execute B t1)) = true.
Proof.
  intros t1 t0. split.
  - apply execute_result_frame; try reflexivity.
    + apply same_transport_refl.
    + now left.
  - now apply execute_log_function.
Qed.

(** C10.  The function path is taken exactly when [function] is a string.
    With a string, a run that returns gives the table built from the
    function's response, after looking the function up, and logs nothing of
    the entity path.  With anything else ([None], an integer, ...), a run logs
    nothing of the function path; when [entity] is true a run that returns
    gives the table built from the entities, after looking the entity set up;
    when it is not, a run logs nothing of either path and, when it returns,
    returns [None]. *)
Theorem function_path_iff_string B t :
  (isinstance_str (function t) = true ->
     forallb (fun ev => negb (entity_path_event ev)) (run_trace (execute B t)) = true /\
     forall v, run_result (execute B t) = Ok v ->
       exists d, v = Some (DataFrame_from_dict d) /\
                 In (EvFunctionLookup (py_str (function t))) (run_trace (execute B t))) /\
  (isinstance_str (function t) = false ->
     forallb (fun ev => negb (function_path_event ev)) (run_trace (execute B t)) = true /\
     (truthy (entity t) = true ->
        forall v, run_result (execute B t) = Ok v ->
          exists rows, v = Some (DataFrame_from_records rows) /\
                       In (EvEntitySetLookup (entity t)) (run_trace (execute B t))) /\
     (truthy (entity t) = false ->
        forallb (fun ev => negb (function_path_event ev) && negb (entity_path_event ev))
                (run_trace (execute B t)) = true /\
        forall v, run_result (execute B t) = Ok v -> v = None)).
Proof.
  split.
  - intros Hs. split; [now apply execute_log_function|].
    intros v H.
    destruct (execute_ok_paths B t v H) as [[_ P]|[(Hn & _)|(Hn & _)]]; congruence.
  - intros Hn. split; [now apply execute_log_not_function|]. split.
    + intros Ht v H.
      destruct (execute_ok_paths B t v H) as [[Hs _]|[(_ & _ & P)|(_ & Hf & _)]]; congruence.
    + intros Hf. split; [now apply execute_log_no_selector|].
      intros v H.
      destruct (execute_ok_paths B t v H) as [[Hs _]|[(_ & Ht & _)|(_ & _ & P)]]; congruence.
Qed.

Lemma function_path_iff_string_witness :
  run_result (execute Stub.shop Stub.integer_function) = Ok None /\
  forallb (fun ev => negb (function_path_event ev) && negb (entity_path_event ev))
          (run_trace (execute Stub.shop Stub.integer_function)) = true.
Proof.
  split; [reflexivity|].
  apply (proj2 (function_path_iff_string Stub.shop Stub.integer_function)); reflexivity.
Defined.

(** The same with an entity: [function=5, entity="Customers"] takes the
    entity path. *)
Lemma integer_function_with_entity :
  run_result (execute Stub.shop
                (mkTask Stub.hook PyNone Stub.url (PyObj true "5") (PyStr "Customers") PyNone
                        (ParamDict [("Id", DStr "C1")]))) = Ok (Some customers_table).
Proof. reflexivity. Qed.

(** ** The transport *)

(** C8, as stated, fails: with a handle of another class and no usable
    identifier, [execute] uses the handle and returns a table; with a handle
    that is a string it fails on the attribute, under the label [None]. *)
Lemma wrong_typed_handle_without_identifier_is_used :
  isinstance_HttpHook (http_hook Stub.duck_get_orders) = false /\
  truthy (http_conn_id Stub.duck_get_orders) = false /\
  run_result (execute Stub.shop Stub.duck_get_orders) = Ok (Some orders_table) /\
  existsb function_path_event (run_trace (execute Stub.shop Stub.duck_get_orders)) = true /\
  run_result (execute Stub.shop Stub.string_hook_get_orders) =
    Raise (Exn AirflowException
             (wrap_message None
                (Exn AttributeError "'str' object has no attribute 'base_url'"))).
Proof. repeat split. Qed.

(** C8, amended.  When the handle is absent or false and the identifier is
    absent or empty, [execute] raises the error of the step "creating http
    session" before anything else happens: nothing is logged and the instance
    is unchanged.  A handle is built from the identifier exactly when the
    identifier is true and the given handle is not an [HttpHook]. *)
Theorem transport_resolution B t :
  (hook_truthy (http_hook t) = false -> truthy (http_conn_id t) = false ->
     execute B t = mkRun t [] (Raise no_transport_error)) /\
  existsb new_hook_event (run_trace (execute B t)) =
    truthy (http_conn_id t) && negb (isinstance_HttpHook (http_hook t)).
Proof.
  split.
  - destruct t as [hk cid url fn ent prop ps].
    cbn [http_hook http_conn_id]. intros Hh Hc.
    rewrite execute_unfold. unfold_prelude. mrun. reflexivity.
  - destruct (execute_log B t) as (evs & -> & Hall).
    rewrite existsb_app, (path_allowed_not_new_hook _ _ _ Hall), orb_false_r.
    unfold resolve_events.
    destruct (truthy (http_conn_id t)); [|reflexivity].
    destruct (http_hook t) as [| |  |[|]]; reflexivity.
Qed.

Lemma transport_resolution_witness :
  execute Stub.shop Stub.no_transport = mkRun Stub.no_transport [] (Raise no_transport_error).
Proof.
  apply (proj1 (transport_resolution Stub.shop Stub.no_transport)); reflexivity.
Defined.

(** ** Running twice *)

(** C9.  A second [execute] on the instance the first one left behind returns
    the same table. *)
Theorem execute_twice_same_table B t r :
  run_result (execute B t) = Ok r ->
  run_result (execute B (run_self (execute B t))) = Ok r.
Proof.
  intros H. rewrite <- H.
  destruct (execute_self_ok B t r H) as (Hh & Hu & Hf & Hp & Hsel).
  now apply execute_result_frame.
Qed.

Lemma execute_twice_same_table_witness :
  run_result (execute Stub.shop (run_self (execute Stub.shop Stub.customers_of_C1))) =
  Ok (Some (DataFrame_from_records
              [[("name", DStr "Ada"); ("city", DStr "Turin")];
               [("name", DStr "Bob"); ("city", DStr "Oslo")]])).
Proof.
  apply (execute_twice_same_table Stub.shop Stub.customers_of_C1). reflexivity.
Defined.

(** * Further properties of the code *)

(** ** Construction (lines 43-67) *)

(** X1.  Construction succeeds exactly when [property] or [function] is
    true, [service_url] is true and [parameters] is a dict; the instance then
    holds the seven arguments as they were given. *)
Theorem init_succeeds_iff hook conn url fn ent prop ps t :
  init hook conn url fn ent prop ps = Ok t <->
  (truthy prop || truthy fn = true /\ truthy url = true /\ isinstance_dict ps = true /\
   t = mkTask hook conn url fn ent prop ps).
Proof.
  unfold init. cbn [property function service_url parameters].
  destruct (truthy prop), (truthy fn), (truthy url), ps as [items|b n];
    cbn [negb andb orb isinstance_dict]; split;
    try discriminate;
    try (intros (? & ? & ? & ?); discriminate).
  all: try (intros H; injection H as <-; auto).
  all: intros (_ & _ & _ & ->); reflexivity.
Qed.

(** X2.  With a selector given and [service_url] absent or empty,
    construction raises the [service_url] error, whatever [parameters] is:
    the check of line 64 comes before the one of line 66. *)
Theorem init_missing_service_url hook conn url fn ent prop ps :
  truthy prop || truthy fn = true ->
  truthy url = false ->
  init hook conn url fn ent prop ps = Raise service_url_error.
Proof.
  intros Hsel Hurl. unfold init. cbn [property function service_url parameters].
  rewrite <- negb_orb, Hsel, Hurl. reflexivity.
Qed.

Lemma init_missing_service_url_witness :
  init Stub.hook PyNone PyNone (PyStr "GetOrders") PyNone PyNone (ParamOther true "list") =
  Raise service_url_error.
Proof. apply init_missing_service_url; reflexivity. Defined.

(** ** The schema lookup (lines 125-128) *)





(** ** What a run leaves in the instance (lines 80, 86, 112) *)

(** The instance after any run, against the one it started from. *)
Lemma execute_self_any B t :
  let t' := run_self (execute B t) in
  same_transport (http_hook t') (resolved_hook t) /\
  http_conn_id t' = http_conn_id t /\
  service_url t' = service_url t /\
  function t' = function t /\
  entity t' = entity t /\
  parameters t' = parameters t /\
  (property t' = property t \/
   (isinstance_str (function t) = false /\ truthy (entity t) = true /\
    truthy (property t) = false /\ property t' = entity t)).
Proof.
  destruct t as [hk cid url fn ent prop ps].
  rewrite execute_unfold. unfold_prelude. unfold resolved_hook.
  mrun.
  all: try rewrite <- run_as_bind.
  all: try match goal with |- context [dispatch ?B' ?c ?st] =>
         pose proof (dispatch_self B' c st) as Hself;
         destruct (dispatch B' c st) as [st' [v'|e']] eqn:D;
         cbn [fst self] in Hself
       end; unfold ret; mcbn; rewrite ?Hself.
  all: unfold after_dispatch, effective_property; mcbn.
  all: destruct fn as [|f|fb ft]; cbn [is_not_None isinstance_str andb]; mcbn.
  all: try (destruct (truthy ent) eqn:He; mcbn).
  all: try (destruct (truthy prop) eqn:Hp; mcbn).
  all: repeat split; try reflexivity; auto.
  all: try (right; repeat split; reflexivity).
  all: try apply same_transport_refl.
Qed.

(** X4.  Whatever its outcome, a run leaves [http_conn_id], [service_url],
    [function], [entity] and [parameters] as they were; [property] changes
    only by the default of line 112: the entity path was open to the run
    ([function] no string, [entity] true), [property] was false, and it now
    holds [entity]. *)
Theorem execute_keeps_configuration B t :
  let t' := run_self (execute B t) in
  http_conn_id t' = http_conn_id t /\
  service_url t' = service_url t /\
  function t' = function t /\
  entity t' = entity t /\
  parameters t' = parameters t /\
  (property t' = property t \/
   (isinstance_str (function t) = false /\ truthy (entity t) = true /\
    truthy (property t) = false /\ property t' = entity t)).
Proof. intros t'. apply (execute_self_any B t). Qed.

(** X5.  Whatever its outcome, a run leaves in [http_hook] the handle lines
    74-80 settle on, up to its [base_url]: the given handle, or the one built
    from a true identifier when the given handle is no [HttpHook]. *)
Theorem execute_keeps_resolved_handle B t :
  let h' := http_hook (run_self (execute B t)) in
  same_transport h' (resolved_hook t) /\
  isinstance_HttpHook h' = isinstance_HttpHook (resolved_hook t) /\
  hook_truthy h' = hook_truthy (resolved_hook t).
Proof.
  intros h'. destruct (execute_self_any B t) as (Hh & _). fold h' in Hh.
  split; [exact Hh|].
  destruct h', (resolved_hook t); simpl in *; tauto.
Qed.

Lemma resolved_hook_after B t :
  same_transport (resolved_hook (run_self (execute B t))) (resolved_hook t).
Proof.
  destruct (execute_self_any B t) as (Hh & Hc & _).
  unfold resolved_hook at 1. rewrite Hc.
  destruct (truthy (http_conn_id t)) eqn:C; [|exact Hh].
  revert Hh. unfold resolved_hook. rewrite C.
  destruct (hook_truthy (http_hook t) && isinstance_HttpHook (http_hook t)) eqn:E.
  - apply andb_true_iff in E. destruct E as [_ E].
    destruct (http_hook t); try discriminate.
    destruct (http_hook (run_self (execute B t))); simpl; tauto.
  - destruct (http_hook (run_self (execute B t))); simpl; tauto.
Qed.

(** X6.  A second run on the instance the first one left behind ends as the
    first did, also when the first one raised: the same table, the same
    [None], or the same wrapped error. *)
Theorem execute_twice_same_outcome B t :
  run_result (execute B (run_self (execute B t))) = run_result (execute B t).
Proof.
  destruct (execute_self_any B t) as (_ & Hc & Hu & Hf & He & Hp & Hq).
  apply execute_result_frame; try assumption.
  - apply resolved_hook_after.
  - destruct (isinstance_str (function (run_self (execute B t)))) eqn:S; [now left|].
    right. split; [assumption|].
    unfold effective_property. rewrite He.
    destruct Hq as [->|(_ & Ht & Hfalse & ->)]; [reflexivity|].
    rewrite Ht, Hfalse. reflexivity.
Qed.

(** ** The shape of the log (lines 74-135) *)

Section InnerLogs.
Variable B : backend.

Lemma parameter_events_inner rq items :
  forallb inner_event (parameter_events B rq items) = true /\
  filter execution_event (parameter_events B rq items) = [].
Proof.
  revert rq. induction items as [|[n v] rest IH]; intros rq; simpl; [auto|].
  destruct (parameter B rq n v); simpl; auto.
Qed.

Lemma row_events_inner d cols :
  forallb inner_event (row_events B d cols) = true /\
  filter execution_event (row_events B d cols) = [].
Proof.
  induction cols as [|c rest IH]; simpl; [auto|].
  destruct (entity_getattr B d c); simpl; auto.
Qed.

Lemma rows_events_inner cols ds :
  forallb inner_event (rows_events B ds cols) = true /\
  filter execution_event (rows_events B ds cols) = [].
Proof.
  induction ds as [|d rest IH]; simpl; [auto|].
  rewrite forallb_app, filter_app.
  destruct (row_events_inner d cols) as [-> ->].
  destruct (row_value B d cols []); simpl; auto.
Qed.

Ltac close_inner :=
  cbn [fst snd trace];
  rewrite <- ?app_assoc; cbn [app];
  first [ eexists; split; [ reflexivity | ]
        | exists []; split; [ now rewrite app_nil_r | ] ];
  unfold executions;
  repeat first
    [ rewrite forallb_app
    | rewrite filter_app
    | rewrite length_app
    | rewrite (proj1 (parameter_events_inner _ _))
    | rewrite (proj2 (parameter_events_inner _ _))
    | rewrite (proj1 (rows_events_inner _ _))
    | rewrite (proj2 (rows_events_inner _ _))
    | progress cbn [forallb filter andb orb length inner_event execution_event
                    function_path_event entity_path_event Nat.add] ];
  split; [ reflexivity | lia ].

Lemma function_path_inner c st :
  exists evs, trace (fst (function_path B c st)) = trace st ++ evs /\
              forallb inner_event evs = true /\ executions evs <= 1.
Proof.
  destruct st as [[h c0 u f e p ps] s tr].
  rewrite run_as_bind. unfold function_path. mrun; close_inner.
Qed.

Lemma entity_path_inner c st :
  exists evs, trace (fst (entity_path B c st)) = trace st ++ evs /\
              forallb inner_event evs = true /\ executions evs <= 1.
Proof.
  destruct st as [[h c0 u f e p ps] s tr].
  rewrite run_as_bind. unfold entity_path. mrun; close_inner.
Qed.

Lemma dispatch_inner c st :
  exists evs, trace (fst (dispatch B c st)) = trace st ++ evs /\
              forallb inner_event evs = true /\ executions evs <= 1.
Proof.
  unfold dispatch. rewrite bind_get_self.
  destruct (is_not_None (function (self st)) && isinstance_str (function (self st)));
    [apply function_path_inner|].
  destruct (truthy (entity (self st))); [apply entity_path_inner|].
  exists []. rewrite app_nil_r. repeat split. unfold executions; simpl; lia.
Qed.
End InnerLogs.

Lemma execute_log_shape B t :
  exists evs, run_trace (execute B t) = resolve_events t ++ evs /\ run_shape B t evs.
Proof.
  destruct t as [hk cid url fn ent prop ps].
  rewrite execute_unfold. unfold_prelude. unfold resolve_events, run_shape, resolved_hook.
  cbn [service_url http_conn_id http_hook].
  mrun.
  all: try rewrite <- run_as_bind.
  all: try match goal with |- context [dispatch ?B' ?c ?st] =>
         destruct (dispatch_inner B' c st) as (inner & Hevs & Hall & Hex);
         destruct (dispatch B' c st) as [st' [v'|e']] eqn:D;
         cbn [fst snd trace self] in Hevs
       end.
  all: unfold ret; mcbn; rewrite ?Hevs, <- ?app_assoc; cbn [app].
  all: eexists; (split; [ reflexivity | ]).
  all: try (left; reflexivity).
  all: try (right; left; reflexivity).
  all: right; right; eexists.
  all: match goal with
       | |- exists h, _ /\ _ /\ _ /\ (?tr = _ \/ _) =>
           match tr with context [EvGetConn ?x] => exists x end
       end.
  all: split; [ first [eassumption | reflexivity] | ].
  all: split; [ reflexivity | ].
  all: split; [ reflexivity | ].
  all: try (left; reflexivity).
  all: first
         [ right; eexists; split; [ eassumption | split; [ eassumption | reflexivity ] ]
         | right; exists []; split; [ reflexivity | split; [ apply Nat.le_0_l | reflexivity ] ] ].
Qed.

Lemma filter_none {A} (P Q : A -> bool) l :
  (forall x, P x = true -> Q x = false) ->
  forallb P l = true -> filter Q l = [].
Proof.
  intros HPQ. induction l as [|x l IH]; simpl; [reflexivity|].
  rewrite andb_true_iff. intros [Hx Hl]. rewrite (HPQ x Hx). auto.
Qed.

Lemma resolve_events_filter (Q : event -> bool) t :
  (forall m, Q (LogInfo m) = false) ->
  (forall c, Q (EvNewHttpHook c) = false) ->
  filter Q (resolve_events t) = [].
Proof.
  intros H1 H2. unfold resolve_events.
  destruct (truthy (http_conn_id t));
    [destruct (hook_truthy (http_hook t) && isinstance_HttpHook (http_hook t))|];
    simpl; rewrite ?H1, ?H2; reflexivity.
Qed.

(** X7.  The session is closed exactly when it was opened, once, and as the
    last thing a run does: the log has as many closings as client
    constructions, at most one, and a closing is its last entry. *)
Theorem session_closed_when_opened B t :
  let tr := run_trace (execute B t) in
  length (filter close_event tr) = length (filter client_event tr) /\
  length (filter close_event tr) <= 1 /\
  existsb close_event tr = close_event (last tr (LogInfo EmptyString)).
Proof.
  intros tr. subst tr.
  destruct (execute_log_shape B t) as (evs & -> & Hshape).
  rewrite !filter_app, !length_app, existsb_app.
  rewrite !(resolve_events_filter _ t) by reflexivity.
  assert (Hres : existsb close_event (resolve_events t) = false).
  { unfold resolve_events.
    destruct (truthy (http_conn_id t));
      [destruct (hook_truthy (http_hook t) && isinstance_HttpHook (http_hook t))|];
      reflexivity. }
  rewrite Hres. cbn [length Nat.add orb].
  destruct Hshape as [->|[->|(u & h & _ & _ & _ & [->|(inner & Hin & _ & ->)])]].
  - rewrite app_nil_r. cbn. repeat split; try lia.
    unfold resolve_events.
    destruct (truthy (http_conn_id t));
      [destruct (hook_truthy (http_hook t) && isinstance_HttpHook (http_hook t))|];
      reflexivity.
  - cbn. repeat split; try lia.
    rewrite last_last. reflexivity.
  - cbn. repeat split; try lia.
    change [EvParseUrl (service_url t); EvSetBaseUrl (format_base_url u); EvGetConn h]
      with ([EvParseUrl (service_url t); EvSetBaseUrl (format_base_url u)] ++ [EvGetConn h]).
    rewrite app_assoc, last_last. reflexivity.
  - assert (Hc : filter close_event inner = [])
      by (eapply filter_none; [|exact Hin]; intros []; simpl; congruence).
    assert (Hk : filter client_event inner = [])
      by (eapply filter_none; [|exact Hin]; intros []; simpl; congruence).
    cbn [app filter close_event client_event length].
    rewrite !filter_app, Hc, Hk. cbn. repeat split; try lia.
    rewrite existsb_app. cbn [existsb close_event orb]. rewrite orb_true_r.
    rewrite !app_comm_cons, !app_assoc, last_last. reflexivity.
Qed.

(** X8.  A session is opened at most once, and on a handle whose [base_url]
    is the scheme, host and port of [service_url], whatever it held before;
    the handle is the resolved one. *)
Theorem get_conn_on_rewritten_base_url B t h :
  In (EvGetConn h) (run_trace (execute B t)) ->
  length (filter get_conn_event (run_trace (execute B t))) = 1 /\
  transport_conn_id (resolved_hook t) = Some (hook_conn_id h) /\
  exists u, parse_url B (service_url t) = Ok u /\
            base_url h = Some (format_base_url u).
Proof.
  destruct (execute_log_shape B t) as (evs & -> & Hshape).
  rewrite filter_app, length_app, (resolve_events_filter _ t) by reflexivity.
  rewrite in_app_iff. intros [Hin|Hin].
  { exfalso. revert Hin. unfold resolve_events.
    destruct (truthy (http_conn_id t));
      [destruct (hook_truthy (http_hook t) && isinstance_HttpHook (http_hook t))|];
      simpl; intuition discriminate. }
  destruct Hshape as [->|[->|(u & h' & Hu & Hb & Hc & [->|(inner & Hall & _ & ->)])]].
  - destruct Hin.
  - simpl in Hin. intuition discriminate.
  - simpl in Hin. destruct Hin as [Hin|[Hin|[Hin|[]]]]; try discriminate.
    injection Hin as ->. cbn. repeat split; try assumption. now exists u.
  - assert (Hg : filter get_conn_event inner = [])
      by (eapply filter_none; [|exact Hall]; intros []; simpl; congruence).
    cbn [app filter get_conn_event length]. rewrite filter_app, Hg. cbn.
    assert (Hh : h = h').
    { cbn [app] in Hin.
      destruct Hin as [Hin|[Hin|[Hin|[Hin|Hin]]]]; try discriminate.
      - now injection Hin.
      - apply in_app_iff in Hin. destruct Hin as [Hin|[Hin|[]]]; [|discriminate].
        assert (F : In (EvGetConn h) (filter get_conn_event inner))
          by (apply filter_In; split; [assumption | reflexivity]).
        rewrite Hg in F. destruct F. }
    subst h'. repeat split; try assumption. now exists u.
Qed.

(** The handle given to [Stub.get_orders] holds no [base_url]; the session is
    opened on one that does. *)
Lemma get_conn_on_rewritten_base_url_witness :
  length (filter get_conn_event (run_trace (execute Stub.shop Stub.get_orders))) = 1 /\
  transport_conn_id (resolved_hook Stub.get_orders) =
    Some (hook_conn_id (mkHttpHook (PyStr "sap") (Some "https://sap.example.com:8443"))) /\
  exists u, parse_url Stub.shop (service_url Stub.get_orders) = Ok u /\
            base_url (mkHttpHook (PyStr "sap") (Some "https://sap.example.com:8443")) =
              Some (format_base_url u).
Proof.
  apply (get_conn_on_rewritten_base_url Stub.shop Stub.get_orders).
  vm_compute. tauto.
Defined.

(** X9.  A run executes at most one request: the function's or the entity
    query's, never both and never one twice. *)
Theorem at_most_one_execution B t :
  executions (run_trace (execute B t)) <= 1.
Proof.
  destruct (execute_log_shape B t) as (evs & -> & Hshape).
  unfold executions.
  rewrite filter_app, length_app, (resolve_events_filter _ t) by reflexivity.
  destruct Hshape as [->|[->|(u & h & _ & _ & _ & [->|(inner & _ & Hex & ->)])]];
    cbn [app filter execution_event length Nat.add]; try lia.
  rewrite filter_app, length_app. cbn [filter execution_event length].
  unfold executions in Hex. lia.
Qed.

(** ** The step label of a failure (lines 70, 82, 95-130, 138) *)

Section Labels.
Variable B : backend.

Ltac close_label :=
  cbn [fst snd trace step_msg self function entity];
  split;
  [ rewrite <- ?app_assoc; cbn [app]; eexists; split; [ reflexivity | ];
    rewrite ?existsb_app; cbn [existsb lookup_event orb];
    rewrite ?orb_true_r; reflexivity
  | cbn [In]; tauto ].

Lemma function_path_label c st :
  (exists evs, trace (fst (function_path B c st)) = trace st ++ evs /\
               existsb lookup_event evs = true) /\
  In (step_msg (fst (function_path B c st))) (function_labels (self st)).
Proof.
  destruct st as [[h c0 u f e p ps] s tr]. unfold function_labels.
  rewrite run_as_bind. unfold function_path. mrun; close_label.
Qed.

Lemma entity_path_label c st :
  (exists evs, trace (fst (entity_path B c st)) = trace st ++ evs /\
               existsb lookup_event evs = true) /\
  In (step_msg (fst (entity_path B c st))) (entity_labels (self st)).
Proof.
  destruct st as [[h c0 u f e p ps] s tr]. unfold entity_labels.
  rewrite run_as_bind. unfold entity_path. mrun; close_label.
Qed.

Lemma dispatch_label c st e :
  snd (dispatch B c st) = Raise e ->
  (exists evs, trace (fst (dispatch B c st)) = trace st ++ evs /\
               existsb lookup_event evs = true) /\
  In (step_msg (fst (dispatch B c st))) (path_labels (self st)).
Proof.
  unfold dispatch, path_labels. rewrite bind_get_self.
  destruct (function (self st)) as [|f|fb ft] eqn:Hf;
    cbn [is_not_None isinstance_str andb].
  2: { intros _. exact (function_path_label c st). }
  all: destruct (truthy (entity (self st)));
    [ intros _; exact (entity_path_label c st) | discriminate ].
Qed.
End Labels.

Lemma execute_failure_stage B t e' :
  run_result (execute B t) = Raise e' ->
  exists label e,
    e' = Exn AirflowException (wrap_message label e) /\
    failure_stage t label (run_trace (execute B t)).
Proof.
  destruct t as [hk cid url fn ent prop ps].
  rewrite execute_unfold. unfold_prelude.
  unfold failure_stage, resolve_events, resolved_hook.
  cbn [service_url http_conn_id http_hook].
  mrun.
  all: try rewrite <- run_as_bind.
  all: try match goal with |- context [dispatch ?B' ?c ?st] =>
         pose proof (dispatch_label B' c st) as HL;
         destruct (dispatch B' c st) as [st' [v'|e0]] eqn:D;
         cbn [fst snd trace self] in HL
       end.
  all: unfold ret; mcbn; try discriminate.
  all: intros H; injection H as <-; do 2 eexists; (split; [ reflexivity | ]).
  all: try (left; repeat split; reflexivity).
  all: try (right; left; repeat split; reflexivity).
  all: right; right.
  all: destruct (HL _ eq_refl) as [(evs & -> & Hlook) Hlab].
  all: split; [ reflexivity | split; [ exact Hlab | ] ].
  all: rewrite <- ?app_assoc; cbn [app existsb lookup_event orb].
  all: rewrite ?existsb_app, Hlook; reflexivity.
Qed.

(** X10.  A failed run raises one [AirflowException] whose message carries a
    label that tells where the run stopped: "creating http session" when no
    handle is usable, and then nothing was called; [None] when a handle is
    usable and the failure came before either path looked anything up (the
    parsing of [service_url], the assignment of [base_url], the opening of
    the session, the construction of the client); otherwise a label of the
    path the selector chose. *)
Theorem failure_reports_its_stage B t e' :
  run_result (execute B t) = Raise e' ->
  exists label e,
    e' = Exn AirflowException (wrap_message label e) /\
    failure_stage t label (run_trace (execute B t)).
Proof. apply execute_failure_stage. Qed.

Lemma failure_reports_its_stage_witness :
  exists label e,
    Exn AirflowException
        (wrap_message None (Exn AirflowException "The conn_id `sap` isn't defined")) =
    Exn AirflowException (wrap_message label e) /\
    failure_stage Stub.get_orders label (run_trace (execute Stub.offline Stub.get_orders)).
Proof.
  apply (failure_reports_its_stage Stub.offline Stub.get_orders). reflexivity.
Defined.

(** X11.  The label "creating http session" is reported only when no handle
    is usable, and then before anything was called: a failure to parse
    [service_url], to open the session or to build the client is never
    reported under it. *)
Theorem creating_http_session_means_no_handle B t e :
  run_result (execute B t) =
    Raise (Exn AirflowException (wrap_message (Some "creating http session") e)) ->
  hook_truthy (resolved_hook t) = false /\ run_trace (execute B t) = resolve_events t.
Proof.
  intros H.
  destruct (execute_failure_stage B t _ H) as (label & e0 & Heq & Hst).
  injection Heq as Heq.
  destruct Hst as [(Hh & _ & Htr)|[(_ & -> & _)|(_ & Hin & _)]].
  - split; assumption.
  - exfalso. unfold wrap_message, dquote in Heq. cbn in Heq. discriminate Heq.
  - exfalso. unfold path_labels, function_labels, entity_labels in Hin.
    destruct (isinstance_str (function t)); cbn [In] in Hin;
      repeat (destruct Hin as [<-|Hin]); try contradiction;
      unfold wrap_message, dquote in Heq; cbn in Heq; discriminate Heq.
Qed.

Lemma creating_http_session_means_no_handle_witness :
  hook_truthy (resolved_hook Stub.no_transport) = false /\
  run_trace (execute Stub.shop Stub.no_transport) = resolve_events Stub.no_transport.
Proof.
  apply (creating_http_session_means_no_handle Stub.shop Stub.no_transport
           (Exn AirflowException "Cannot operate without `http_hook` or `http_conn_id`.")).
  reflexivity.
Defined.

(** ** The handle and the identifier (lines 74-86) *)

(** X12.  With an [HttpHook] given, the identifier plays no part in the
    outcome: the run ends as it does with any other identifier, or none. *)
Theorem identifier_is_ignored_with_a_handle B t c :
  hook_truthy (http_hook t) && isinstance_HttpHook (http_hook t) = true ->
  run_result (execute B (set_http_conn_id c t)) = run_result (execute B t).
Proof.
  intros H. apply execute_result_frame; try reflexivity.
  - unfold resolved_hook, set_http_conn_id. cbn [http_hook http_conn_id]. rewrite H.
    destruct (truthy c), (truthy (http_conn_id t)); apply same_transport_refl.
  - right. split; reflexivity.
Qed.

Lemma identifier_is_ignored_with_a_handle_witness :
  run_result (execute Stub.shop (set_http_conn_id (PyStr "other") Stub.get_orders)) =
  run_result (execute Stub.shop Stub.get_orders).
Proof.
  apply (identifier_is_ignored_with_a_handle Stub.shop Stub.get_orders (PyStr "other")).
  reflexivity.
Defined.

(** X13.  The [base_url] a given handle holds before the run plays no part
    in the outcome: line 86 overwrites it before the handle is used. *)
Theorem given_base_url_is_overwritten B t c b b' :
  run_result (execute B (set_http_hook (HookInstance (mkHttpHook c b)) t)) =
  run_result (execute B (set_http_hook (HookInstance (mkHttpHook c b')) t)).
Proof.
  apply execute_result_frame; try reflexivity.
  - unfold resolved_hook, set_http_hook. cbn.
    destruct (truthy (http_conn_id t)); reflexivity.
  - right. split; reflexivity.
Qed.

(** ** The binding of the parameters (lines 98-104) *)

Section Bindings.
Variable B : backend.

Lemma parameter_events_bindings rq items :
  bindings (parameter_events B rq items) = parameter_events B rq items /\
  existsb function_execute_event (parameter_events B rq items) = false.
Proof.
  revert rq. induction items as [|[n v] rest IH]; intros rq; simpl; [auto|].
  destruct (parameter B rq n v) as [rq'|e]; simpl; [|auto].
  destruct (IH rq') as [-> ->]. auto.
Qed.

Lemma parameter_events_prefix rq items :
  exists rest,
    map parameter_event items = parameter_events B rq items ++ rest /\
    forall rq', fold_parameters B rq items = Ok rq' -> rest = [].
Proof.
  revert rq. induction items as [|[n v] more IH]; intros rq; simpl.
  - exists []. auto.
  - destruct (parameter B rq n v) as [rq'|e].
    + destruct (IH rq') as (rest & -> & Hn). exists rest. auto.
    + exists (map parameter_event more). split; [reflexivity | discriminate].
Qed.

Lemma row_events_bindings d cols :
  bindings (row_events B d cols) = [] /\
  existsb function_execute_event (row_events B d cols) = false.
Proof.
  induction cols as [|c rest IH]; simpl; [auto|].
  destruct (entity_getattr B d c); simpl; auto.
Qed.

Lemma rows_events_bindings cols ds :
  bindings (rows_events B ds cols) = [] /\
  existsb function_execute_event (rows_events B ds cols) = false.
Proof.
  unfold bindings.
  induction ds as [|d rest IH]; simpl; [auto|].
  rewrite filter_app, existsb_app.
  destruct (row_events_bindings d cols) as [E1 E2]. unfold bindings in E1.
  rewrite E1, E2.
  destruct (row_value B d cols []); simpl; auto.
Qed.

Ltac close_bindings :=
  cbn [fst snd trace self parameters items_of params_truthy];
  rewrite <- ?app_assoc; cbn [app];
  try match goal with
      | |- context [parameter_events _ ?a ?items] =>
          destruct (parameter_events_prefix a items) as (rest0 & Hp & Hn);
          destruct (parameter_events_bindings a items) as [Hb Hx];
          rewrite Hp
      end;
  do 2 eexists; (split; [ reflexivity | ]);
  unfold bindings in *;
  repeat first
    [ rewrite filter_app
    | rewrite existsb_app
    | match goal with H : filter parameter_ev ?x = ?x |- _ => rewrite H end
    | match goal with H : existsb function_execute_event _ = false |- _ => rewrite H end
    | rewrite (proj1 (rows_events_bindings _ _))
    | rewrite (proj2 (rows_events_bindings _ _))
    | rewrite <- app_assoc
    | progress cbn [filter parameter_ev existsb function_execute_event orb app map] ];
  split;
  [ reflexivity
  | intros Hex;
    first [ discriminate Hex
          | match goal with H : forall _, _ -> _ = [] |- _ => eapply H; eassumption end
          | reflexivity ] ].

Lemma function_path_bindings c st :
  exists evs rest,
    trace (fst (function_path B c st)) = trace st ++ evs /\
    map parameter_event (items_of (parameters (self st))) = bindings evs ++ rest /\
    (existsb function_execute_event evs = true -> rest = []).
Proof.
  destruct st as [[h c0 u f e p [[|kv items]|pb pn]] s tr].
  all: rewrite run_as_bind; unfold function_path; mrun.
  all: close_bindings.
Qed.

Lemma entity_path_bindings c st :
  exists evs rest,
    trace (fst (entity_path B c st)) = trace st ++ evs /\
    map parameter_event (items_of (parameters (self st))) = bindings evs ++ rest /\
    (existsb function_execute_event evs = true -> rest = []).
Proof.
  destruct st as [[h c0 u f e p ps] s tr].
  rewrite run_as_bind; unfold entity_path; mrun.
  all: close_bindings.
Qed.

Lemma dispatch_bindings c st :
  exists evs rest,
    trace (fst (dispatch B c st)) = trace st ++ evs /\
    map parameter_event (items_of (parameters (self st))) = bindings evs ++ rest /\
    (existsb function_execute_event evs = true -> rest = []).
Proof.
  unfold dispatch. rewrite bind_get_self.
  destruct (is_not_None (function (self st)) && isinstance_str (function (self st)));
    [apply function_path_bindings|].
  destruct (truthy (entity (self st))); [apply entity_path_bindings|].
  exists [], (map parameter_event (items_of (parameters (self st)))).
  rewrite app_nil_r. repeat split. discriminate.
Qed.
End Bindings.

Lemma execute_bindings B t :
  exists rest,
    map parameter_event (items_of (parameters t)) =
      bindings (run_trace (execute B t)) ++ rest /\
    (existsb function_execute_event (run_trace (execute B t)) = true -> rest = []).
Proof.
  destruct t as [hk cid url fn ent prop ps].
  rewrite execute_unfold. unfold_prelude.
  cbn [parameters].
  mrun.
  all: try rewrite <- run_as_bind.
  all: try match goal with |- context [dispatch ?B' ?c ?st] =>
         destruct (dispatch_bindings B' c st) as (evs & rest & Hevs & Hmap & Himp);
         destruct (dispatch B' c st) as [st' [v'|e']] eqn:D;
         cbn [fst snd trace self parameters] in Hevs, Hmap
       end.
  all: unfold ret; mcbn; rewrite ?Hevs, <- ?app_assoc; cbn [app].
  all: unfold bindings in *.
  all: repeat first
         [ rewrite filter_app
         | rewrite existsb_app
         | progress cbn [filter parameter_ev existsb function_execute_event orb app] ].
  all: rewrite ?app_nil_r, ?orb_false_r.
  all: first
         [ exists rest; split; [ exact Hmap | exact Himp ]
         | eexists; split; [ reflexivity | discriminate ] ].
Qed.

(** X14.  The parameters a run binds on the request are the first items of
    [parameters], in their order, and the function's request is executed
    only after every item was bound: a binding that fails ends the run with
    nothing sent. *)
Theorem parameters_are_bound_in_order B t :
  exists rest,
    map parameter_event (items_of (parameters t)) =
      bindings (run_trace (execute B t)) ++ rest /\
    (In EvFunctionExecute (run_trace (execute B t)) -> rest = []).
Proof.
  destruct (execute_bindings B t) as (rest & Hmap & Himp).
  exists rest. split; [exact Hmap|].
  intros Hin. apply Himp. apply existsb_exists.
  exists EvFunctionExecute. split; [exact Hin | reflexivity].
Qed.

(** ** The instance after two runs *)

Lemma after_dispatch_fields t :
  after_dispatch t =
  mkTask (http_hook t) (http_conn_id t) (service_url t) (function t) (entity t)
         (property (after_dispatch t)) (parameters t).
Proof.
  destruct t as [h c u f e p ps]. unfold after_dispatch, effective_property, set_property.
  cbn [http_hook http_conn_id service_url function entity property parameters].
  destruct (is_not_None f && isinstance_str f); [reflexivity|].
  destruct (truthy e); reflexivity.
Qed.

Lemma after_dispatch_again h h' c u f e p ps :
  after_dispatch (mkTask h' c u f e (property (after_dispatch (mkTask h c u f e p ps))) ps) =
  mkTask h' c u f e (property (after_dispatch (mkTask h c u f e p ps))) ps.
Proof.
  unfold after_dispatch, effective_property, set_property.
  cbn [http_hook http_conn_id service_url function entity property parameters].
  destruct (is_not_None f && isinstance_str f); [reflexivity|].
  destruct (truthy e) eqn:He; [|reflexivity].
  cbn [property]. destruct (truthy p) eqn:Hp; rewrite ?Hp, ?He; reflexivity.
Qed.

(** X15.  A second run leaves the instance exactly as the first one left it:
    the handle, its [base_url] and the defaulted [property] are settled after
    one run, whatever its outcome. *)
Theorem execute_twice_same_instance B t :
  run_self (execute B (run_self (execute B t))) = run_self (execute B t).
Proof.
  destruct t as [hk cid url fn ent prop ps].
  remember (execute B (mkTask hk cid url fn ent prop ps)) as R eqn:ER.
  revert ER. rewrite (execute_unfold B (mkTask hk cid url fn ent prop ps)). unfold_prelude.
  mrun.
  all: try rewrite <- run_as_bind.
  all: try match goal with |- context [dispatch ?B' ?c ?st] =>
         pose proof (dispatch_self B' c st) as Hself;
         destruct (dispatch B' c st) as [st' [v'|e']] eqn:D;
         cbn [fst self] in Hself;
         rewrite after_dispatch_fields in Hself;
         cbn [http_hook http_conn_id service_url function entity parameters] in Hself
       end.
  all: unfold ret; mcbn; intros ->; mcbn; rewrite ?Hself.
  all: rewrite execute_unfold; unfold_prelude; mrun.
  all: try rewrite <- run_as_bind.
  all: try match goal with |- context [dispatch ?B' ?c ?st] =>
         pose proof (dispatch_self B' c st) as Hself2;
         destruct (dispatch B' c st) as [st2 [v2|e2]] eqn:D2;
         cbn [fst self] in Hself2
       end.
  all: unfold ret; mcbn; rewrite ?Hself2.
  all: first [ reflexivity | apply after_dispatch_again ].
Qed.

(** ** Runs that return (lines 74-135) *)

(** Then the run is the branch on the selector, started on that client with
    the fields as given and no label set. *)
Lemma execute_from_client B t c :
  session_opens B t c ->
  exists st,
    function (self st) = function t /\
    entity (self st) = entity t /\
    property (self st) = property t /\
    parameters (self st) = parameters t /\
    run_result (execute B t) =
      match dispatch B c st with
      | (_, Ok v) => Ok v
      | (st', Raise e) => Raise (Exn AirflowException (wrap_message (step_msg st') e))
      end.
Proof.
  intros (cid' & u & r & Hh & Hu & Hg & Hc).
  destruct t as [hk cid url fn ent prop ps].
  cbn [service_url function parameters entity property] in *.
  unfold resolved_hook in Hh. cbn [http_hook http_conn_id] in Hh.
  destruct (truthy cid) eqn:C;
    destruct hk as [|[i b]|[i b]|[|] e];
    cbn [hook_truthy isinstance_HttpHook andb transport_conn_id hook_conn_id HttpHook_init] in Hh;
    try discriminate; injection Hh as <-.
  all: rewrite execute_unfold; unfold_prelude; mrun.
  all: rewrite <- run_as_bind.
  all: match goal with |- context [dispatch ?B' ?c' ?st] => exists st end.
  all: cbn [self function entity property parameters].
  all: repeat (split; [reflexivity|]).
  all: match goal with |- context [dispatch ?B' ?c' ?st] =>
         destruct (dispatch B' c' st) as [st' [v|e']] end; reflexivity.
Qed.



(** X17.  When every collaborator answers, the entity path returns: with a
    client built, the entity set found, the entity fetched by the items of
    the [parameters] dict, the property navigated, the query executed, the
    property's entity set in the schema and every declared property readable
    on every entity, the run returns the table built from the rows. *)
Theorem entity_path_returns B t c es items er np q ds schema rows :
  session_opens B t c ->
  isinstance_str (function t) = false ->
  truthy (entity t) = true ->
  parameters t = ParamDict items ->
  entity_sets_getattr B c (entity t) = Ok es ->
  get_entity B es items = Ok er ->
  nav B er (effective_property t) = Ok np ->
  get_entities B np = Ok q ->
  query_execute B q = Ok ds ->
  schema_lookup (schema_entity_sets B c) (effective_property t) = Ok schema ->
  rows_value B ds (es_proprties schema) = Ok rows ->
  run_result (execute B t) = Ok (Some (DataFrame_from_records rows)).
Proof.
  intros Hopen Hf He Hp Hl Hge Hn Hq Hx Hs Hr.
  destruct (execute_from_client B t c Hopen) as (st & Sf & Se & Sq & Sp & ->).
  unfold effective_property in *.
  rewrite <- Sf in Hf. rewrite <- Sp in Hp. rewrite <- Se, <- ?Sq in *.
  clear Hopen Sf Se Sq Sp.
  destruct st as [[hk cid url fn ent prop ps] s tr].
  cbn [self function parameters entity property] in *. subst ps.
  destruct fn as [|f|fb ft]; try discriminate.
  all: destruct (truthy prop) eqn:P.
  all: rewrite (run_as_bind (dispatch B c)); unfold dispatch, entity_path; mrun.
  all: reflexivity.
Qed.

Lemma entity_path_returns_witness :
  run_result (execute Stub.shop Stub.customers_of_C1) = Ok (Some customers_table).
Proof.
  eapply (entity_path_returns Stub.shop Stub.customers_of_C1).
  - exists (PyStr "sap"), (mkUrl (Some "https") (Some "sap.example.com") (Some 8443%Z)).
    eexists. repeat split; reflexivity.
  - reflexivity.
  - reflexivity.
  - reflexivity.
  - reflexivity.
  - reflexivity.
  - reflexivity.
  - reflexivity.
  - reflexivity.
  - reflexivity.
  - reflexivity.
Defined.

(** ** The label of each step (lines 95-130, 138) *)

(** X18.  On the function path a failure is reported under the label of the
    step it happened in, with the text of the original exception: the lookup
    of the function and the binding of a parameter under "preparing data
    request for function ...", the execution under "sending request and
    recieving data", a response without "results" under "creating result
    pandas DataFrame". *)
Theorem function_path_failure_labels B t f c :
  session_opens B t c ->
  function t = PyStr f ->
  isinstance_dict (parameters t) = true ->
  let items := items_of (parameters t) in
  let preparing := ("preparing data request for function " ++ f)%string in
  (forall e, functions_getattr B c f = Raise e ->
     run_result (execute B t) = step_error preparing e) /\
  (forall rq0 e,
     functions_getattr B c f = Ok rq0 ->
     fold_parameters B rq0 items = Raise e ->
     run_result (execute B t) = step_error preparing e) /\
  (forall rq0 rq e,
     functions_getattr B c f = Ok rq0 ->
     fold_parameters B rq0 items = Ok rq ->
     function_execute B rq = Raise e ->
     run_result (execute B t) = step_error "sending request and recieving data" e) /\
  (forall rq0 rq response e,
     functions_getattr B c f = Ok rq0 ->
     fold_parameters B rq0 items = Ok rq ->
     function_execute B rq = Ok response ->
     getitem response "results" = Raise e ->
     run_result (execute B t) = step_error "creating result pandas DataFrame" e).
Proof.
  intros Hopen Hf Hd.
  destruct (execute_from_client B t c Hopen) as (st & Sf & _ & _ & Sp & ->).
  rewrite <- Sf in Hf. rewrite <- Sp in *. clear Hopen Sf Sp.
  destruct st as [[hk cid url fn ent prop ps] s tr].
  cbn [self function parameters] in *. subst fn.
  destruct ps as [items|]; [|discriminate]. cbn [items_of]. unfold step_error.
  cbv zeta.
  destruct items as [|kv items]; repeat split; intros.
  1-4: cbn [fold_parameters] in *; try discriminate.
  all: repeat match goal with
              | H : functions_getattr _ _ ?x = _ |- _ =>
                  lazymatch x with
                  | py_str _ => fail
                  | _ => change x with (py_str (PyStr x)) in H
                  end
              end.
  all: repeat match goal with H : Ok _ = Ok _ |- _ => injection H as <- end.
  all: rewrite (run_as_bind (dispatch B c)); unfold dispatch, function_path; mrun.
  all: reflexivity.
Qed.

Lemma function_path_failure_labels_witness :
  run_result (execute Stub.shop (set_function (PyStr "GetInvoices") Stub.get_orders)) =
  step_error "preparing data request for function GetInvoices"
             (Exn AttributeError "unknown function GetInvoices").
Proof.
  refine (proj1 (function_path_failure_labels Stub.shop
                   (set_function (PyStr "GetInvoices") Stub.get_orders) "GetInvoices" tt
                   _ eq_refl eq_refl) _ eq_refl).
  exists (PyStr "sap"), (mkUrl (Some "https") (Some "sap.example.com") (Some 8443%Z)).
  eexists. repeat split; reflexivity.
Defined.

(** X19.  On the entity path a failure is reported under the label of the
    step it happened in, with the text of the original exception: the four
    calls of lines 116-117 under "preparing data request for entity set ...",
    the execution under "sending request and recieving data", a property
    that names no entity set of the schema under "recieving headers", an
    attribute an entity lacks under "creating result pandas DataFrame". *)
Theorem entity_path_failure_labels B t c items :
  session_opens B t c ->
  isinstance_str (function t) = false ->
  truthy (entity t) = true ->
  parameters t = ParamDict items ->
  let p := effective_property t in
  let preparing := ("preparing data request for entity set " ++ py_str (entity t))%string in
  (forall e, entity_sets_getattr B c (entity t) = Raise e ->
     run_result (execute B t) = step_error preparing e) /\
  (forall es e,
     entity_sets_getattr B c (entity t) = Ok es ->
     get_entity B es items = Raise e ->
     run_result (execute B t) = step_error preparing e) /\
  (forall es er e,
     entity_sets_getattr B c (entity t) = Ok es ->
     get_entity B es items = Ok er ->
     nav B er p = Raise e ->
     run_result (execute B t) = step_error preparing e) /\
  (forall es er np e,
     entity_sets_getattr B c (entity t) = Ok es ->
     get_entity B es items = Ok er ->
     nav B er p = Ok np ->
     get_entities B np = Raise e ->
     run_result (execute B t) = step_error preparing e) /\
  (forall q e,
     query_prepared B c t items p q ->
     query_execute B q = Raise e ->
     run_result (execute B t) = step_error "sending request and recieving data" e) /\
  (forall q ds e,
     query_prepared B c t items p q ->
     query_execute B q = Ok ds ->
     schema_lookup (schema_entity_sets B c) p = Raise e ->
     run_result (execute B t) = step_error "recieving headers" e) /\
  (forall q ds schema e,
     query_prepared B c t items p q ->
     query_execute B q = Ok ds ->
     schema_lookup (schema_entity_sets B c) p = Ok schema ->
     rows_value B ds (es_proprties schema) = Raise e ->
     run_result (execute B t) = step_error "creating result pandas DataFrame" e).
Proof.
  intros Hopen Hf He Hp.
  destruct (execute_from_client B t c Hopen) as (st & Sf & Se & Sq & Sp & ->).
  unfold effective_property, query_prepared, step_error.
  rewrite <- Sf in Hf. rewrite <- Sp in Hp. rewrite <- Se, <- ?Sq in *.
  clear Hopen Sf Se Sq Sp.
  destruct st as [[hk cid url fn ent prop ps] s tr].
  cbn [self function parameters entity property] in *. subst ps.
  cbv zeta.
  destruct fn as [|f|fb ft]; try discriminate.
  all: destruct (truthy prop) eqn:P.
  all: repeat split; intros.
  all: repeat match goal with H : exists _, _ |- _ => destruct H as (? & H) end.
  all: repeat match goal with H : _ /\ _ |- _ => destruct H as (? & H) end.
  all: rewrite (run_as_bind (dispatch B c)); unfold dispatch, entity_path; mrun.
  all: reflexivity.
Qed.

Lemma entity_path_failure_labels_witness :
  run_result (execute Stub.shop (set_property (PyStr "Orders") Stub.customers_of_C1)) =
  step_error "preparing data request for entity set Customers"
             (Exn AttributeError "unknown navigation property Orders").
Proof.
  refine (proj1 (proj2 (proj2
            (entity_path_failure_labels Stub.shop
               (set_property (PyStr "Orders") Stub.customers_of_C1) tt [("Id", DStr "C1")]
               _ eq_refl eq_refl eq_refl)))
            "Customers" ("Customers", [("Id", DStr "C1")]) _ eq_refl eq_refl eq_refl).
  exists (PyStr "sap"), (mkUrl (Some "https") (Some "sap.example.com") (Some 8443%Z)).
  eexists. repeat split; reflexivity.
Defined.

(** ** Construction, then a run *)

Lemma init_ok hook conn url fn ent prop ps t :
  init hook conn url fn ent prop ps = Ok t ->
  truthy prop || truthy fn = true /\ t = mkTask hook conn url fn ent prop ps.
Proof.
  unfold init. cbn [property function service_url parameters].
  destruct (truthy prop), (truthy fn), (truthy url), ps as [items|b n];
    cbn [negb andb orb isinstance_dict]; try discriminate.
  all: intros H; injection H as <-; auto.
Qed.

(** X20.  On an instance that passed construction a run leaves [property]
    as given, unless [function] is true without being a string: only then can
    the entity path meet an absent [property] and fill it with [entity]. *)
Theorem constructed_task_property_default B hook conn url fn ent prop ps t :
  init hook conn url fn ent prop ps = Ok t ->
  property (run_self (execute B t)) = prop \/
  (truthy fn = true /\ isinstance_str fn = false /\ truthy ent = true /\
   truthy prop = false /\ property (run_self (execute B t)) = ent).
Proof.
  intros H. apply init_ok in H. destruct H as [Hsel ->].
  destruct (execute_self_any B (mkTask hook conn url fn ent prop ps))
    as (_ & _ & _ & _ & _ & _ & [Hp|(Hs & He & Hq & Hp)]);
    cbn [property function entity] in *.
  - now left.
  - right. rewrite Hq in Hsel. cbn [orb] in Hsel. auto.
Qed.

Lemma constructed_task_property_default_witness :
  property (run_self (execute Stub.shop
              (mkTask Stub.hook PyNone Stub.url (PyObj true "5") (PyStr "Customers") PyNone
                      (ParamDict [("Id", DStr "C1")])))) = PyNone \/
  (truthy (PyObj true "5") = true /\ isinstance_str (PyObj true "5") = false /\
   truthy (PyStr "Customers") = true /\ truthy PyNone = false /\
   property (run_self (execute Stub.shop
               (mkTask Stub.hook PyNone Stub.url (PyObj true "5") (PyStr "Customers") PyNone
                       (ParamDict [("Id", DStr "C1")])))) = PyStr "Customers").
Proof.
  apply (constructed_task_property_default Stub.shop Stub.hook PyNone Stub.url
           (PyObj true "5") (PyStr "Customers") PyNone (ParamDict [("Id", DStr "C1")])).
  reflexivity.
Defined.
